(** * Hybrid document ingestion pipeline of EduGenius (src/api/app)

    Shallow embedding of the parts of the ingestion pipeline that the
    specification makes claims about:
    - [OCRSemaphore] (app/core/ocr_semaphore.py) and its caller
      [upload_document] (app/api/endpoints/documents.py);
    - [validate_pdf_before_upload] (app/utils/pdf_validator.py);
    - [OCREngine.process_pdf_page] / [OCREngine.process_pdf]
      (app/core/ocr_engine.py);
    - [HybridDocumentProcessor] (app/services/hybrid_document_processor.py);
    - [TextbookParser] (app/core/textbook_parser.py);
    - the chapter extractors (app/services/improved_chapter_extractor.py,
      app/services/chapter_divider_robust.py).

    Python floats are modelled as rationals [Q]; Python strings as lists of
    Unicode code points where characters matter, as [string] elsewhere. *)

From stdpp Require Import base gmap strings list.
From Stdlib Require Import QArith ZArith Sorting.Sorted.
Open Scope nat_scope.

(* ================================================================== *)
(** ** Python exceptions *)

(** The exception classes that the modelled code can raise.  Since Python
    3.8 [asyncio.CancelledError] derives from [BaseException], not from
    [Exception]; the other classes derive from [Exception]. *)
Inductive PyExc :=
| CancelledError
| TypeError
| NameError
| RuntimeFailure (msg : string).

(** [isinstance(e, Exception)]: what an [except Exception] clause catches. *)
Definition is_Exception (e : PyExc) : bool :=
  match e with
  | CancelledError => false
  | _ => true
  end.

(** Result of a Python call: a return value or a raised exception. *)
Inductive PyResult (A : Type) :=
| Ret (a : A)
| Raise (e : PyExc).
Arguments Ret {A} a.
Arguments Raise {A} e.

(* ================================================================== *)
(** ** OCRSemaphore (app/core/ocr_semaphore.py) *)

Module OCRSemaphore.

(** The object state: [self._semaphore] (an [asyncio.Semaphore], i.e. its
    counter [_value]), [self._max_concurrent] and [self._current_tasks]. *)
Record t := mk {
  sem_value : nat;
  max_concurrent : nat;
  current_tasks : gset string
}.

(** [__init__(self, max_concurrent=2)]. *)
Definition init (max_concurrent : nat) : t :=
  mk max_concurrent max_concurrent ∅.

(** The global instance [ocr_semaphore = OCRSemaphore(max_concurrent=2)]. *)
Definition ocr_semaphore : t := init 2.

(** How the suspended [await self._semaphore.acquire()] ends.  An
    [asyncio.Semaphore.acquire] either takes a unit of the counter (only
    possible while [_value > 0]; otherwise the coroutine stays suspended
    until a [release] wakes it), or is cancelled while suspended, raising
    [CancelledError].  It raises nothing else (the process runs one event
    loop, so the loop-binding check of [asyncio] never fails). *)
Inductive SemWait :=
| Acquired
| Cancelled.

(** [await self._semaphore.acquire()]: [None] while the coroutine cannot
    proceed (counter at 0), otherwise the result and the new counter. *)
Definition sem_acquire (w : SemWait) (s : t) : option (PyResult unit * t) :=
  match w with
  | Cancelled => Some (Raise CancelledError, s)
  | Acquired =>
      match sem_value s with
      | 0 => None
      | S v => Some (Ret tt, mk v (max_concurrent s) (current_tasks s))
      end
  end.

(** [async def acquire(self, task_id)]:
<<
        try:
            await self._semaphore.acquire()
            self._current_tasks.add(task_id)
            logger.info(...)
            return True
        except Exception as e:
            logger.error(...)
            return False
>>  *)
Definition acquire (w : SemWait) (s : t) (task_id : string)
    : option (PyResult bool * t) :=
  match sem_acquire w s with
  | None => None
  | Some (Ret tt, s1) =>
      Some (Ret true,
            mk (sem_value s1) (max_concurrent s1)
               ({[task_id]} ∪ current_tasks s1))
  | Some (Raise e, s1) =>
      if is_Exception e then Some (Ret false, s1) else Some (Raise e, s1)
  end.

(** [def release(self, task_id)]:
<<
        if task_id in self._current_tasks:
            self._current_tasks.remove(task_id)
            self._semaphore.release()
>>  *)
Definition release (s : t) (task_id : string) : t :=
  if decide (task_id ∈ current_tasks s) then
    mk (S (sem_value s)) (max_concurrent s) (current_tasks s ∖ {[task_id]})
  else s.



End OCRSemaphore.

(* ================================================================== *)
(** ** Document status and the upload endpoint (documents.py) *)

(** The values written to [documents.processing_status]. *)
Inductive DocStatus :=
| st_pending
| st_processing
| st_ocr_processing
| st_queued
| st_completed
| st_failed.

#[global] Instance DocStatus_eq_dec : EqDecision DocStatus.
Proof. solve_decision. Defined.

(** How the background pipeline started by [upload_document] ends:
    [processor.process_document] returns (it catches [Exception] itself and
    then returns a dict with [success = False]), or the task is cancelled
    ([CancelledError] propagates through every [except Exception]). *)
Inductive PipelineOutcome :=
| PipeSucceeded
| PipeFailedCaught (e : PyExc)
| PipeCancelled.

Module Upload.
Import OCRSemaphore.

(** [process_document_async] (the closure scheduled with
    [asyncio.create_task] in [upload_document]):
<<
    async with async_session_maker() as async_db:
        try:
            result = await processor.process_document(...)
        except Exception as e:
            ... processing_status = 'failed'
>>
    Neither this closure nor [HybridDocumentProcessor.process_document],
    [_fast_path] or [_ocr_path] calls [ocr_semaphore.release]: the gate
    state is returned as it was.  The status written is [completed] on
    success and [failed] when [process_document] caught an exception; on
    cancellation nothing more is written ([None]). *)
Definition process_document_async (o : PipelineOutcome) (g : OCRSemaphore.t)
    : OCRSemaphore.t * option DocStatus :=
  match o with
  | PipeSucceeded => (g, Some st_completed)
  | PipeFailedCaught _ => (g, Some st_failed)
  | PipeCancelled => (g, None)
  end.

(** The PDF branch of [upload_document] from the status update to
    [pending] to the response, as far as the gate is concerned:
<<
    if validation['is_scan']:
        task_id = f"doc_{new_document.id}"
        acquired = await ocr_semaphore.acquire(task_id)
        if not acquired:
            ... processing_status = 'queued'
            return DocumentUploadResponse(..., processing_status="queued")
    asyncio.create_task(process_document_async())
    return DocumentUploadResponse(...,
        processing_status="pending" if validation['is_scan'] else "processing")
>>
    [None]: the request is still suspended in [acquire].  A
    [CancelledError] from [acquire] is not caught by the handler's
    [except Exception] and propagates. *)
Definition upload_pdf (is_scan : bool) (task_id : string) (w : SemWait)
    (g : OCRSemaphore.t) : option (PyResult DocStatus * OCRSemaphore.t) :=
  if is_scan then
    match acquire w g task_id with
    | None => None
    | Some (Ret false, g1) => Some (Ret st_queued, g1)
    | Some (Ret true, g1) => Some (Ret st_pending, g1)
    | Some (Raise e, g1) => Some (Raise e, g1)
    end
  else Some (Ret st_processing, g).

(** The upload followed by the background pipeline it scheduled, until that
    pipeline ends with outcome [o]: the response status, the final
    document status and the gate state afterwards. *)
Definition upload_and_process (is_scan : bool) (task_id : string)
    (w : SemWait) (o : PipelineOutcome) (g : OCRSemaphore.t)
    : option (PyResult DocStatus * option DocStatus * OCRSemaphore.t) :=
  match upload_pdf is_scan task_id w g with
  | None => None
  | Some (Ret st_queued, g1) => Some (Ret st_queued, Some st_queued, g1)
  | Some (Ret r, g1) =>
      let '(g2, fin) := process_document_async o g1 in
      Some (Ret r, fin, g2)
  | Some (Raise e, g1) => Some (Raise e, None, g1)
  end.

End Upload.

(* ================================================================== *)
(** ** Python strings as code points *)

Module PyStr.

(** A Python [str] as its sequence of Unicode code points. *)
Abbreviation pystr := (list N).

(** [str.isspace] on one character: the characters whose bidirectional
    class is WS, B or S, or whose category is Zs. *)
Definition isspace (c : N) : bool :=
  ((9 <=? c) && (c <=? 13))%N || ((28 <=? c) && (c <=? 32))%N
  || (c =? 133)%N || (c =? 160)%N || (c =? 5760)%N
  || ((8192 <=? c) && (c <=? 8202))%N
  || (c =? 8232)%N || (c =? 8233)%N || (c =? 8239)%N || (c =? 8287)%N
  || (c =? 12288)%N.

Fixpoint lstrip (s : pystr) : pystr :=
  match s with
  | [] => []
  | c :: s' => if isspace c then lstrip s' else s
  end.

(** [str.strip()] without arguments. *)
Definition strip (s : pystr) : pystr := rev (lstrip (rev (lstrip s))).

(** Truth value of a string: [bool(s)] is [len(s) > 0]. *)
Definition truthy (s : pystr) : bool :=
  match s with [] => false | _ => true end.

End PyStr.

(* ================================================================== *)
(** ** validate_pdf_before_upload (app/utils/pdf_validator.py) *)

Module PdfValidator.
Import PyStr.

(** The returned dict, without the free-text [recommendation] field. *)
Record result := mk_result {
  has_text : bool;
  total_pages : nat;
  text_pages : nat;
  image_pages : nat;
  text_ratio : Q;
  is_scan : bool;
  sample_text : pystr
}.

(** Per page, [page.get_text()]: the native text layer, or [None] when
    PyMuPDF raises. *)
Definition page_texts := list (option pystr).

(** The loop
<<
    for page_num in range(len(doc)):
        text = page.get_text()
        if text.strip():
            result['text_pages'] += 1
            if not result['sample_text']:
                result['sample_text'] = text[:200]
        else:
            result['image_pages'] += 1
>>
    run on the accumulated (text_pages, image_pages, sample_text); the
    boolean says whether a page raised (the loop is then left for the
    [except] clause). *)
Fixpoint scan_pages (pages : page_texts) (tp ip : nat) (sample : pystr)
    : nat * nat * pystr * bool :=
  match pages with
  | [] => (tp, ip, sample, false)
  | None :: _ => (tp, ip, sample, true)
  | Some text :: rest =>
      if truthy (strip text) then
        scan_pages rest (S tp) ip
          (if truthy sample then sample else take 200 text)
      else scan_pages rest tp (S ip) sample
  end.

(** [validate_pdf_before_upload(file_path)]; [None] when [fitz.open]
    raises.  [is_scan] is [text_ratio < 0.2], i.e. not [0.2 <= text_ratio]. *)
Definition validate_pdf_before_upload (doc : option page_texts) : result :=
  match doc with
  | None => mk_result false 0 0 0 0 false []
  | Some pages =>
      let total := length pages in
      let '(tp, ip, sample, raised) := scan_pages pages 0 0 [] in
      if raised then mk_result false total tp ip 0 false sample
      else
        let ratio : Q :=
          if 0 <? total then (inject_Z (Z.of_nat tp) / inject_Z (Z.of_nat total))%Q
          else 0%Q in
        mk_result (0 <? tp) total tp ip ratio (negb (Qle_bool (1 # 5) ratio)) sample
  end.

(** A page "has text": some character of its text layer is not whitespace. *)
Definition has_non_whitespace (s : pystr) : bool :=
  existsb (fun c => negb (isspace c)) s.

End PdfValidator.

(* ================================================================== *)
(** ** OCREngine (app/core/ocr_engine.py) *)

Module OCREngine.

Definition Qsum (l : list Q) : Q := fold_right Qplus 0%Q l.

(** [sum(xs) / len(xs) if xs else 0.0]. *)
Definition mean (l : list Q) : Q :=
  match l with
  | [] => 0%Q
  | _ => (Qsum l / inject_Z (Z.of_nat (length l)))%Q
  end.

(** What rendering and recognising one page produces: PyMuPDF or the
    recognition call raises (the [except Exception] of
    [process_pdf_page]), or the recognizer returns [result[0]], a list of
    entries, each falsy ([None]) or a line with its text and confidence. *)
Inductive PageRecognition :=
| RenderFailed (err : string)
| Recognized (lines : list (option (string * Q))).

Record page_result := mk_page {
  page_num : nat;
  text : string;
  confidence : Q;
  success : bool;
  error : option string
}.

Definition newline : string := String (Ascii.ascii_of_nat 10) EmptyString.

Fixpoint join (sep : string) (l : list string) : string :=
  match l with
  | [] => ""
  | [x] => x
  | x :: l' => x +:+ sep +:+ join sep l'
  end.

(** The recognized lines of [result[0]], skipping falsy entries. *)
Definition line_list (lines : list (option (string * Q))) : list (string * Q) :=
  omap id lines.

(** [process_pdf_page(pdf_path, page_num)] (0-based [page_num]). *)
Definition process_pdf_page (page : nat) (r : PageRecognition) : page_result :=
  match r with
  | RenderFailed err => mk_page (S page) "" 0%Q false (Some err)
  | Recognized lines =>
      let ls := line_list lines in
      let confidence_scores := map snd ls in
      mk_page (S page) (join newline (map fst ls))
              (mean confidence_scores) true None
  end.

Record pdf_result := mk_pdf {
  pdf_success : bool;
  processed_pages : nat;
  pages : list page_result;
  full_text : string;
  avg_confidence : Q;
  errors : list string
}.

(** The loop of [process_pdf] over [pages_to_process]:
<<
    result = self.process_pdf_page(pdf_path, page_num, dpi)
    if result['success']:
        results.append(result)
        all_text_parts.append(result['text'])
        if result['confidence'] > 0:
            confidence_scores.append(result['confidence'])
    else:
        errors.append(f"第{page_num+1}页: {result['error']}")
>>
    The accumulators are (results, all_text_parts, confidence_scores,
    errors); the error message keeps only the page's error text. *)
Fixpoint process_loop (todo : list (nat * PageRecognition))
    (results : list page_result) (texts : list string)
    (confs : list Q) (errs : list string)
    : list page_result * list string * list Q * list string :=
  match todo with
  | [] => (results, texts, confs, errs)
  | (p, r) :: rest =>
      let res := process_pdf_page p r in
      if success res then
        process_loop rest (results ++ [res]) (texts ++ [text res])
          (if Qle_bool (confidence res) 0 then confs
           else confs ++ [confidence res]) errs
      else
        process_loop rest results texts confs
          (errs ++ [default "" (error res)])
  end.

(** [process_pdf(pdf_path, pages)] on an openable PDF: [todo] lists the
    0-based pages to process with what recognition does on each. *)
Definition process_pdf (todo : list (nat * PageRecognition)) : pdf_result :=
  let '(results, texts, confs, errs) := process_loop todo [] [] [] [] in
  mk_pdf true (length results) results
    (join (newline +:+ newline) texts) (mean confs) errs.

(** [process_pdf(pdf_path, pages)] with its outer handler:
<<
    self._initialize()
    try:
        doc = fitz.open(pdf_path)
        ...
    except Exception as e:
        return {'success': False, 'total_pages': 0, 'processed_pages': 0,
                'pages': [], 'full_text': '', 'avg_confidence': 0.0,
                'errors': [str(e)]}
>>
    [inl msg]: a statement of the [try] outside the page calls raises
    (e.g. [fitz.open] on a file that is not a PDF), with [str(e) = msg];
    [inr todo]: the file opens and [todo] lists the pages to process, the
    body of the [try] being [process_pdf] above ([process_pdf_page] catches
    its own exceptions). [self._initialize()] runs before the [try] and is
    taken to succeed. *)
Definition process_pdf_or_error (opened : string + list (nat * PageRecognition))
    : pdf_result :=
  match opened with
  | inl msg => mk_pdf false 0 [] EmptyString 0%Q [msg]
  | inr todo => process_pdf todo
  end.

(** The claim's reading: the mean of the confidences of all pages that
    succeeded, each the mean of its line confidences. *)
Definition spec_avg_confidence (todo : list (nat * PageRecognition)) : Q :=
  mean (map confidence (List.filter success
          (map (fun '(p, r) => process_pdf_page p r) todo))).

(** Per-page confidence of the recognition outcome, [None] for a failed page. *)
Definition page_confidence (r : PageRecognition) : option Q :=
  match r with
  | RenderFailed _ => None
  | Recognized lines => Some (mean (map snd (line_list lines)))
  end.

End OCREngine.

(* ================================================================== *)
(** ** Dynamically typed values used by the bookmark formatting *)

Module PyVal.
Import PyStr.

Inductive t :=
| VInt (z : Z)
| VStr (s : pystr).

(** Decimal digits of a natural number, most significant first. *)
Fixpoint digits_fuel (fuel : nat) (n : N) (acc : pystr) : pystr :=
  match fuel with
  | O => acc
  | S f =>
      let acc' := (48 + N.modulo n 10)%N :: acc in
      if (n <? 10)%N then acc' else digits_fuel f (N.div n 10) acc'
  end.

(** [str(z)] for a Python [int]. *)
Definition str_of_Z (z : Z) : pystr :=
  let d := digits_fuel 64 (Z.to_N (Z.abs z)) [] in
  if (z <? 0)%Z then 45%N :: d else d.

(** [str(v)] as used inside an f-string. *)
Definition to_str (v : t) : pystr :=
  match v with
  | VInt z => str_of_Z z
  | VStr s => s
  end.

(** [a - b]. *)
Definition sub (a b : t) : PyResult t :=
  match a, b with
  | VInt x, VInt y => Ret (VInt (x - y))
  | _, _ => Raise TypeError
  end.

Fixpoint repeat_str (s : pystr) (n : nat) : pystr :=
  match n with O => [] | S k => s ++ repeat_str s k end.

(** [a * b] where one side is a [str] and the other an [int]. *)
Definition mul (a b : t) : PyResult t :=
  match a, b with
  | VStr s, VInt n | VInt n, VStr s => Ret (VStr (repeat_str s (Z.to_nat n)))
  | VInt x, VInt y => Ret (VInt (x * y))
  | VStr _, VStr _ => Raise TypeError
  end.

Definition same_type (a b : t) : bool :=
  match a, b with
  | VInt _, VInt _ | VStr _, VStr _ => true
  | _, _ => false
  end.

(** [max(xs)] is computed only to be printed: it raises [TypeError] when
    the values are not mutually comparable, and [ValueError] (here
    [RuntimeFailure]) on an empty list. *)
Definition max_check (xs : list t) : PyResult unit :=
  match xs with
  | [] => Raise (RuntimeFailure "max() arg is an empty sequence")
  | x :: rest => if forallb (same_type x) rest then Ret tt else Raise TypeError
  end.

(** [xs[i]] on a Python list. *)
Definition index (xs : list t) (i : nat) : PyResult t :=
  match xs !! i with
  | Some v => Ret v
  | None => Raise (RuntimeFailure "IndexError")
  end.

End PyVal.

(* ================================================================== *)
(** ** Formatting of outline entries (shared by both bookmark readers) *)

Module Bookmark.
Import PyStr.

(** One outline entry as PyMuPDF's [doc.get_toc()] returns it:
    the Python list [[lvl, title, page]]. *)
Definition entry_as_list (e : Z * pystr * Z) : list PyVal.t :=
  let '(lvl, title, page) := e in [PyVal.VInt lvl; PyVal.VStr title; PyVal.VInt page].

Definition bullet : N := 8226.   (* '•' *)
Definition di : N := 31532.      (* '第' *)
Definition ye : N := 39029.      (* '页' *)

(**
<<
    indent = "  " * (level - 1)
    f"{indent}{'•' * level} {title} (第{page_num}页)"
>>  *)
Definition format_entry (level title page_num : PyVal.t) : PyResult pystr :=
  match PyVal.sub level (PyVal.VInt 1) with
  | Raise e => Raise e
  | Ret lm1 =>
      match PyVal.mul (PyVal.VStr [32; 32]%N) lm1 with
      | Raise e => Raise e
      | Ret indent =>
          match PyVal.mul (PyVal.VStr [bullet]) level with
          | Raise e => Raise e
          | Ret bullets =>
              Ret (PyVal.to_str indent ++ PyVal.to_str bullets ++ [32%N]
                   ++ PyVal.to_str title ++ [32; 40; di]%N
                   ++ PyVal.to_str page_num ++ [ye; 41]%N)
          end
      end
  end.

Fixpoint join_lines (l : list pystr) : pystr :=
  match l with
  | [] => []
  | [x] => x
  | x :: l' => x ++ [10%N] ++ join_lines l'
  end.

End Bookmark.

(* ================================================================== *)
(** ** TextbookParser (app/core/textbook_parser.py) *)

Module TextbookParser.
Import PyStr.

(** What [_extract_bookmarks] returns ([pages] is not modelled). *)
Record bookmark_result := mk_bm {
  bm_success : bool;
  bm_has_content : bool;
  bm_toc_text : pystr
}.

Definition bm_failure : bookmark_result := mk_bm false false [].

(** The formatting loop of [_extract_bookmarks]:
<<
    for item in toc:
        level, title, page_num = item[1], item[0], item[2]
        indent = "  " * (level - 1)
        toc_text_parts.append(f"{indent}{'•' * level} {title} (第{page_num}页)")
        pages_set.add(page_num)
>>  *)
Fixpoint format_items (toc : list (list PyVal.t)) : PyResult (list pystr) :=
  match toc with
  | [] => Ret []
  | item :: rest =>
      match PyVal.index item 1, PyVal.index item 0, PyVal.index item 2 with
      | Ret level, Ret title, Ret page_num =>
          match Bookmark.format_entry level title page_num with
          | Raise e => Raise e
          | Ret line =>
              match format_items rest with
              | Raise e => Raise e
              | Ret lines => Ret (line :: lines)
              end
          end
      | Raise e, _, _ | _, Raise e, _ | _, _, Raise e => Raise e
      end
  end.

(** [_extract_bookmarks(file_path)]; its argument is the outcome of
    [fitz.open(file_path).get_toc()].  Every exception is caught by the
    method's [except Exception] and turned into the failure dict. *)
Definition _extract_bookmarks (get_toc : PyResult (list (Z * pystr * Z)))
    : bookmark_result :=
  match get_toc with
  | Raise _ => bm_failure
  | Ret [] => bm_failure
  | Ret entries =>
      let toc := map Bookmark.entry_as_list entries in
      (* max_level = max([item[1] for item in toc]) *)
      match PyVal.max_check (omap (fun it => it !! 1) toc) with
      | Raise _ => bm_failure
      | Ret tt =>
          match format_items toc with
          | Raise _ => bm_failure
          | Ret parts => mk_bm true true (Bookmark.join_lines parts)
          end
      end
  end.

(** What [_heuristic_scan] returns (native text only, no recognition). *)
Record scan_result := mk_scan {
  scan_toc_text : pystr;
  scan_pages : list nat;
  scan_need_ai_guess : bool
}.

Record parse_result := mk_parse {
  toc_text : pystr;
  source : string;
  parse_pages : list nat;
  need_ai_guess : bool
}.

(** [parse_textbook(file_path)]:
<<
    bookmark_result = self._extract_bookmarks(file_path)
    if bookmark_result['success'] and bookmark_result['has_content']:
        print(f"... {len(book_result['toc'])} ...")
        return {'toc_text': ..., 'source': 'bookmark', ...}
    scan_result = await self._heuristic_scan(file_path)
    return {'toc_text': scan_result['toc_text'], 'source': 'scan', ...}
>>
    [book_result] is an unbound name: evaluating the f-string raises
    [NameError] before the [return].  [scan] is what [_heuristic_scan]
    returns (it catches its own exceptions). *)
Definition parse_textbook (get_toc : PyResult (list (Z * pystr * Z)))
    (scan : scan_result) : PyResult parse_result :=
  let br := _extract_bookmarks get_toc in
  if bm_success br && bm_has_content br then Raise NameError
  else Ret (mk_parse (scan_toc_text scan) "scan" (scan_pages scan)
              (scan_need_ai_guess scan)).

(** The bookmark step of [HybridDocumentProcessor._ocr_path]:
<<
    toc = doc.get_toc()
    if toc and len(toc) > 0:
        for level, title, page_num in toc:
            indent = "  " * (level - 1)
            toc_parts.append(f"{indent}{'•' * level} {title} (第{page_num}页)")
        toc_text = "\n".join(toc_parts)
        toc_source = "bookmark"
>>
    [None] when there is no outline or an exception was caught (the
    [toc_text] stays empty and recognition runs). *)
Fixpoint format_entries (entries : list (Z * pystr * Z)) : PyResult (list pystr) :=
  match entries with
  | [] => Ret []
  | (lvl, title, page) :: rest =>
      match Bookmark.format_entry (PyVal.VInt lvl) (PyVal.VStr title) (PyVal.VInt page),
            format_entries rest with
      | Ret line, Ret lines => Ret (line :: lines)
      | Raise e, _ | _, Raise e => Raise e
      end
  end.

Definition ocr_path_bookmarks (get_toc : PyResult (list (Z * pystr * Z)))
    : option pystr :=
  match get_toc with
  | Raise _ | Ret [] => None
  | Ret entries =>
      match format_entries entries with
      | Ret parts => Some (Bookmark.join_lines parts)
      | Raise _ => None
      end
  end.

End TextbookParser.

(* ================================================================== *)
(** ** Contiguous TOC page selection: TextbookParser._select_best_pages *)

Module PageSelect.
Import PyStr.

(** A [page_scores] entry: [{'page': .., 'score': .., 'text': .., 'char_count': ..}]. *)
Record PageScore := mk_ps {
  page : nat;
  score : nat;
  ptext : pystr
}.

(** [sorted(xs, key=lambda x: x['score'], reverse=True)]: descending and
    stable, equal scores keep their original order. *)
Fixpoint insert_desc (x : PageScore) (l : list PageScore) : list PageScore :=
  match l with
  | [] => [x]
  | y :: l' => if score y <=? score x then x :: l else y :: insert_desc x l'
  end.

Fixpoint sort_by_score_desc (l : list PageScore) : list PageScore :=
  match l with
  | [] => []
  | x :: l' => insert_desc x (sort_by_score_desc l')
  end.

(** [xs.sort(key=lambda x: x['page'])]: ascending and stable. *)
Fixpoint insert_asc (x : PageScore) (l : list PageScore) : list PageScore :=
  match l with
  | [] => [x]
  | y :: l' => if page x <=? page y then x :: l else y :: insert_asc x l'
  end.

Fixpoint sort_by_page (l : list PageScore) : list PageScore :=
  match l with
  | [] => []
  | x :: l' => insert_asc x (sort_by_page l')
  end.

Definition MIN_SCORE : nat := 5.
Definition MAX_TOC_PAGES : nat := 20.

(** [for i, page in enumerate(scoring_pages): if page['score'] == max_score:
    start_index = i; break]. *)
Fixpoint first_index_with_score (s : nat) (l : list PageScore) : nat :=
  match l with
  | [] => 0
  | p :: l' => if score p =? s then 0 else S (first_index_with_score s l')
  end.

(** The forward expansion:
<<
    for i in range(start_index + 1, len(scoring_pages)):
        next_page = scoring_pages[i]['page']
        if next_page == max(selected_page_nums) + 1:
            selected_pages.append(scoring_pages[i])
            selected_page_nums.add(next_page)
        else:
            break
        if len(selected_pages) >= 20:
            break
>>  *)
Fixpoint expand_forward (rest : list PageScore) (selected : list PageScore)
    (nums : list nat) : list PageScore * list nat :=
  match rest with
  | [] => (selected, nums)
  | p :: rest' =>
      if page p =? list_max nums + 1 then
        let selected' := selected ++ [p] in
        let nums' := nums ++ [page p] in
        if MAX_TOC_PAGES <=? length selected' then (selected', nums')
        else expand_forward rest' selected' nums'
      else (selected, nums)
  end.

(** The backfill:
<<
    if len(selected_pages) < 2:
        for page in sorted_pages:
            if page['page'] not in selected_page_nums:
                selected_pages.append(page)
                selected_page_nums.add(page['page'])
                if len(selected_pages) >= 2:
                    break
>>  *)
Fixpoint backfill (cands : list PageScore) (selected : list PageScore)
    (nums : list nat) : list PageScore :=
  match cands with
  | [] => selected
  | p :: cands' =>
      if existsb (Nat.eqb (page p)) nums then backfill cands' selected nums
      else
        let selected' := selected ++ [p] in
        if 2 <=? length selected' then selected'
        else backfill cands' selected' (nums ++ [page p])
  end.

(** The anchored expansion of [_select_best_pages], before the backfill:
    [None] when no page reaches [MIN_SCORE] (the method then returns
    [sorted_pages[:2]]), [Raise] when the backward loop would run (its body
    indexes a [set], a [TypeError]); otherwise the pages selected around the
    anchor and their numbers. *)
Definition expansion (page_scores : list PageScore)
    : option (PyResult (list PageScore * list nat)) :=
  let sorted_pages := sort_by_score_desc page_scores in
  let scoring_pages := List.filter (fun p => MIN_SCORE <=? score p) sorted_pages in
  match scoring_pages with
  | [] => None
  | top :: _ =>
      let start_index := first_index_with_score (score top) scoring_pages in
      match scoring_pages !! start_index with
      | None => None
      | Some anchor =>
          if 0 <? start_index then Some (Raise TypeError)
          else Some (Ret (expand_forward (drop (S start_index) scoring_pages)
                            [anchor] [page anchor]))
      end
  end.

(** [_select_best_pages(page_scores)]. *)
Definition _select_best_pages (page_scores : list PageScore)
    : PyResult (list PageScore) :=
  match page_scores with
  | [] => Ret []
  | _ =>
      let sorted_pages := sort_by_score_desc page_scores in
      match expansion page_scores with
      | None => Ret (take 2 sorted_pages)
      | Some (Raise e) => Raise e
      | Some (Ret (selected, nums)) =>
          let selected' :=
            if length selected <? 2 then backfill sorted_pages selected nums
            else selected in
          Ret (sort_by_page selected')
      end
  end.


End PageSelect.

(* ================================================================== *)
(** ** HybridDocumentProcessor (app/services/hybrid_document_processor.py) *)

Module Hybrid.
Import PyStr.

(** [self.TEXT_RATIO_THRESHOLD = 0.1] and [self.OCR_CONFIDENCE_THRESHOLD = 0.6]. *)
Definition TEXT_RATIO_THRESHOLD : Q := 1 # 10.
Definition OCR_CONFIDENCE_THRESHOLD : Q := 6 # 10.

Inductive Path := FastPath | OcrPath.

(** Path selection of [process_document]:
<<
    if validation['text_ratio'] >= self.TEXT_RATIO_THRESHOLD:
        return await self._fast_path(...)
    else:
        return await self._ocr_path(...)
>>  *)
Definition choose_path (v : PdfValidator.result) : Path :=
  if Qle_bool TEXT_RATIO_THRESHOLD (PdfValidator.text_ratio v) then FastPath
  else OcrPath.

(** The observable end of [_ocr_path] (and of [process_document] around
    it): the last [processing_status] written, the [ocr_confidence]
    written with it, and whether the recognition engine ran. *)
Record ocr_path_end := mk_end {
  final_status : DocStatus;
  recorded_confidence : option Q;
  ran_recognition : bool
}.

(** [_ocr_path].  Inputs: the outcome of [fitz.open(..).get_toc()], the
    outcome of [asyncio.to_thread(self.ocr_engine.process_pdf, ...)] (run only
    when no outline text was built), and how the chapter extraction ends
    (its exceptions are caught by the [except Exception] around it, so it
    only changes [total_chapters]).  An exception elsewhere (OCR failure)
    makes the method write [failed] and re-raise; [process_document] catches
    it and writes [failed] again.
<<
            if not ocr_result['success']:
                raise Exception(f"OCR 处理失败: {ocr_result['errors']}")
            ocr_confidence = ocr_result['avg_confidence']
            ...
            await self._update_document_status(db, document_id,
                processing_status='completed', ocr_confidence=ocr_confidence, ...)
>>  *)
Definition _ocr_path (get_toc : PyResult (list (Z * pystr * Z)))
    (ocr : PyResult OCREngine.pdf_result) : ocr_path_end :=
  let toc_text := default [] (TextbookParser.ocr_path_bookmarks get_toc) in
  if truthy toc_text then
    (* ocr_confidence = 1.0  # 书签不需要 OCR *)
    mk_end st_completed (Some 1%Q) false
  else
    match ocr with
    | Raise _ => mk_end st_failed None true
    | Ret r =>
        if OCREngine.pdf_success r then
          mk_end st_completed (Some (OCREngine.avg_confidence r)) true
        else mk_end st_failed None true
    end.

End Hybrid.

(* ================================================================== *)
(** ** Chapter extraction *)

Module Chapters.
Import PyStr.

(** A chapter dict: [chapter_number] and [chapter_title] (page numbers and
    subsections do not take part in numbering). *)
Record chapter := mk_ch {
  chapter_number : Z;
  chapter_title : pystr
}.

(** *** Primary path: ImprovedChapterExtractor._llm_extract *)

(** How the call to the generative model ends, after the source's JSON
    extraction (three code-block patterns, [json.loads], one repair of
    trailing commas): a non-200 status, a reply containing "TRUNCATED",
    no parsable JSON, or the parsed object with [data.get('has_toc')] and
    [data.get('chapters', [])]. *)
Inductive LlmReply :=
| LlmHttpError
| LlmTruncated
| LlmUnparsable
| LlmJson (has_toc : bool) (chapters : list chapter).

(** The reply handling of [_llm_extract], before its write loop:
<<
    if not data.get('has_toc'):
        return None
    chapters = data.get('chapters', [])
    if not chapters:
        return None
>>
    The write loop and the method's [except] are modelled with the
    [progress] table in [ImprovedChapters._llm_extract]. *)
Definition _llm_extract_reply (reply : LlmReply) : option (list chapter) :=
  match reply with
  | LlmJson true ((_ :: _) as chs) => Some chs
  | _ => None
  end.

(** *** Fallback path: RobustChapterDivider._extract_chapters_with_regex *)


(** [_chinese_to_number]: the table lookup with default 1. *)
Definition chinese_to_number (s : pystr) : Z :=
  let table : list (pystr * N) :=
    [([19968], 1); ([20108], 2); ([19977], 3); ([22235], 4); ([20116], 5);
     ([20845], 6); ([19971], 7); ([20843], 8); ([20061], 9); ([21313], 10);
     ([21313; 19968], 11); ([21313; 20108], 12); ([21313; 19977], 13);
     ([21313; 22235], 14); ([21313; 20116], 15); ([21313; 20845], 16);
     ([21313; 19971], 17); ([21313; 20843], 18); ([21313; 20061], 19);
     ([20108; 21313], 20)]%N in
  match list_find (fun '(k, _) => k = s) table with
  | Some (_, (_, v)) => Z.of_N v
  | None => 1%Z
  end.











End Chapters.

(* ================================================================== *)
(** ** Helpers shared by the further modules *)

Module PyStrOps.
Import PyStr.

(** [sep.join(parts)]. *)
Fixpoint join_with (sep : pystr) (l : list pystr) : pystr :=
  match l with
  | [] => []
  | [x] => x
  | x :: l' => x ++ sep ++ join_with sep l'
  end.

(** [list(range(a, b))] on Python ints. *)
Definition range (a b : Z) : list Z :=
  map (fun i => a + Z.of_nat i)%Z (seq 0 (Z.to_nat (b - a))).

End PyStrOps.

(** Python name resolution for a name that is not a local variable of the
    running function: the module's global namespace, then [builtins]. *)
Module PyScope.

(** [dir(builtins)] of CPython 3.11. *)
Definition builtins : list string :=
  ["ArithmeticError"; "AssertionError"; "AttributeError"; "BaseException";
   "BaseExceptionGroup"; "BlockingIOError"; "BrokenPipeError"; "BufferError";
   "BytesWarning"; "ChildProcessError"; "ConnectionAbortedError";
   "ConnectionError"; "ConnectionRefusedError"; "ConnectionResetError";
   "DeprecationWarning"; "EOFError"; "Ellipsis"; "EncodingWarning";
   "EnvironmentError"; "Exception"; "ExceptionGroup"; "False";
   "FileExistsError"; "FileNotFoundError"; "FloatingPointError";
   "FutureWarning"; "GeneratorExit"; "IOError"; "ImportError";
   "ImportWarning"; "IndentationError"; "IndexError"; "InterruptedError";
   "IsADirectoryError"; "KeyError"; "KeyboardInterrupt"; "LookupError";
   "MemoryError"; "ModuleNotFoundError"; "NameError"; "None";
   "NotADirectoryError"; "NotImplemented"; "NotImplementedError"; "OSError";
   "OverflowError"; "PendingDeprecationWarning"; "PermissionError";
   "ProcessLookupError"; "RecursionError"; "ReferenceError";
   "ResourceWarning"; "RuntimeError"; "RuntimeWarning"; "StopAsyncIteration";
   "StopIteration"; "SyntaxError"; "SyntaxWarning"; "SystemError";
   "SystemExit"; "TabError"; "TimeoutError"; "True"; "TypeError";
   "UnboundLocalError"; "UnicodeDecodeError"; "UnicodeEncodeError";
   "UnicodeError"; "UnicodeTranslateError"; "UnicodeWarning"; "UserWarning";
   "ValueError"; "Warning"; "ZeroDivisionError"; "__build_class__";
   "__debug__"; "__doc__"; "__import__"; "__loader__"; "__name__";
   "__package__"; "__spec__"; "abs"; "aiter"; "all"; "anext"; "any";
   "ascii"; "bin"; "bool"; "breakpoint"; "bytearray"; "bytes"; "callable";
   "chr"; "classmethod"; "compile"; "complex"; "copyright"; "credits";
   "delattr"; "dict"; "dir"; "divmod"; "enumerate"; "eval"; "exec"; "exit";
   "filter"; "float"; "format"; "frozenset"; "getattr"; "globals";
   "hasattr"; "hash"; "help"; "hex"; "id"; "input"; "int"; "isinstance";
   "issubclass"; "iter"; "len"; "license"; "list"; "locals"; "map"; "max";
   "memoryview"; "min"; "next"; "object"; "oct"; "open"; "ord"; "pow";
   "print"; "property"; "quit"; "range"; "repr"; "reversed"; "round"; "set";
   "setattr"; "slice"; "sorted"; "staticmethod"; "str"; "sum"; "super";
   "tuple"; "type"; "vars"; "zip"].

(** The attributes every module namespace has. *)
Definition module_dunders : list string :=
  ["__name__"; "__doc__"; "__package__"; "__loader__"; "__spec__";
   "__file__"; "__cached__"; "__builtins__"].

(** Loading the global name [x]: [NameError] when neither the module nor
    [builtins] binds it. *)
Definition lookup_global (globals : list string) (x : string) : PyResult unit :=
  if decide (x ∈ globals ++ builtins) then Ret tt else Raise NameError.

End PyScope.

(* ================================================================== *)
(** ** OCRSemaphore.get_status (app/core/ocr_semaphore.py) *)

Module GateStatus.
Import OCRSemaphore.



End GateStatus.

(* ================================================================== *)
(** ** Page lists of the recognition run *)

Module OCRPages.

(** The page list of [OCREngine.process_pdf] (app/core/ocr_engine.py):
<<
            if pages is None:
                pages_to_process = list(range(total_pages))
            else:
                pages_to_process = [p - 1 for p in pages]  # 转为0-based
>>  *)
Definition pages_to_process (total_pages : Z) (pages : option (list Z)) : list Z :=
  match pages with
  | None => PyStrOps.range 0 total_pages
  | Some ps => map (fun p => p - 1)%Z ps
  end.

(** [MAX_SCAN_PAGES = 60] in [HybridDocumentProcessor._ocr_path]. *)
Definition MAX_SCAN_PAGES : Z := 60.

(** [pages_to_ocr = list(range(1, min(MAX_SCAN_PAGES + 1, validation['total_pages'] + 1)))]. *)
Definition pages_to_ocr (total_pages : Z) : list Z :=
  PyStrOps.range 1 (Z.min (MAX_SCAN_PAGES + 1) (total_pages + 1)).

End OCRPages.

(* ================================================================== *)
(** ** TextbookParser._heuristic_scan (app/core/textbook_parser.py) *)

Module HeuristicScan.
Import PyStr PageSelect TextbookParser.

Section Scan.

(** [self._calculate_page_score(text, page_num)]: the keyword, page-number
    and numbering weights of the page, computed with regular expressions
    (not modelled; the properties below hold for every scoring). *)
Variable calculate_page_score : pystr -> nat -> nat.

(** The scoring loop over [range(min(self.max_scan_pages, len(doc)))],
    started at [page_num = i]:
<<
                text = page.get_text()
                if not text.strip():
                    continue
                score = self._calculate_page_score(text, page_num)
                if score > 0:
                    page_scores.append({'page': page_num + 1, 'score': score,
                                        'text': text, 'char_count': len(text)})
>>  *)
Fixpoint score_pages (i : nat) (texts : list pystr) : list PageScore :=
  match texts with
  | [] => []
  | text :: rest =>
      if truthy (strip text) then
        let score := calculate_page_score text i in
        if 0 <? score then mk_ps (S i) score text :: score_pages (S i) rest
        else score_pages (S i) rest
      else score_pages (S i) rest
  end.

(** [f"--- 第{n}页 ---\n{text}"]. *)
Definition page_block (n : nat) (text : pystr) : pystr :=
  [45; 45; 45; 32; Bookmark.di]%N ++ PyVal.str_of_Z (Z.of_nat n)
  ++ [Bookmark.ye; 32; 45; 45; 45; 10]%N ++ text.

(** The fallback (no page scored, or an exception caught):
<<
                for i in range(min(10, len(doc))):
                    text = doc[i].get_text().strip()
                    if text:
                        fallback_texts.append(text)
                return {
                    'toc_text': "\n\n".join(f"--- 第{i+1}页 ---\n{text}"
                                            for i, text in enumerate(fallback_texts)),
                    'pages': list(range(1, len(fallback_texts) + 1)),
                    'need_ai_guess': True
                }
>>  *)
Definition fallback (texts : list pystr) : scan_result :=
  let fallback_texts := List.filter truthy (map strip (take 10 texts)) in
  mk_scan
    (PyStrOps.join_with [10; 10]%N
       (zip_with (fun i t => page_block (S i) t)
          (seq 0 (length fallback_texts)) fallback_texts))
    (seq 1 (length fallback_texts)) true.

(** [_heuristic_scan(file_path)] on an openable PDF whose pages have the
    text layers [texts] ([self.max_scan_pages = 60]):
<<
            if not page_scores:
                ... fallback ...
            page_scores.sort(key=lambda x: x['score'], reverse=True)
            best_pages = self._select_best_pages(page_scores)
            toc_text = "\n\n".join([f"--- 第{p['page']}页 ---\n{p['text']}"
                                    for p in best_pages])
            return {'toc_text': toc_text,
                    'pages': [p['page'] for p in best_pages],
                    'need_ai_guess': False}
        except Exception as e:
            ... fallback ...
>>  *)
Definition _heuristic_scan (texts : list pystr) : scan_result :=
  match score_pages 0 (take 60 texts) with
  | [] => fallback texts
  | page_scores =>
      match _select_best_pages (sort_by_score_desc page_scores) with
      | Ret best_pages =>
          mk_scan
            (PyStrOps.join_with [10; 10]%N
               (map (fun p => page_block (page p) (ptext p)) best_pages))
            (map page best_pages) false
      | Raise _ => fallback texts
      end
  end.

End Scan.

End HeuristicScan.

(* ================================================================== *)
(** ** Number words of RobustChapterDivider (chapter_divider_robust.py) *)

Module ChineseNumerals.
Import PyStr.

(** [_number_to_chinese(num)]: [chinese_map.get(num, str(num))] with the
    words for 1..10. *)
Definition _number_to_chinese (num : Z) : pystr :=
  let table : list (Z * pystr) :=
    [(1%Z, [19968%N]); (2%Z, [20108%N]); (3%Z, [19977%N]); (4%Z, [22235%N]);
     (5%Z, [20116%N]); (6%Z, [20845%N]); (7%Z, [19971%N]); (8%Z, [20843%N]);
     (9%Z, [20061%N]); (10%Z, [21313%N])] in
  match list_find (fun '(k, _) => k = num) table with
  | Some (_, (_, v)) => v
  | None => PyVal.str_of_Z num
  end.

End ChineseNumerals.

(* ================================================================== *)
(** ** The [progress] table *)

Module ProgressTable.

(** A [progress] row, as far as chapter records go: its [user_id],
    [document_id] and [chapter_number]. *)
Record progress_row := mk_row {
  pr_user : Z;
  pr_document : Z;
  pr_chapter : Z
}.

(** The key the chapter writers look rows up by. *)
Definition doc_chapter (r : progress_row) : Z * Z := (pr_document r, pr_chapter r).

End ProgressTable.

(* ================================================================== *)
(** ** ImprovedChapterExtractor (app/services/improved_chapter_extractor.py) *)

Module ImprovedChapters.
Import PyStr Chapters ProgressTable.

(** The rows [_create_chapter_progress] looks up for a chapter:
    [Progress.document_id == document_id] and
    [Progress.chapter_number == chapter_info.get('chapter_number', 1)]. *)
Definition same_chapter (document_id : Z) (ch : chapter) (r : progress_row) : bool :=
  ((pr_document r =? document_id) && (pr_chapter r =? chapter_number ch))%Z.

(** [_create_chapter_progress(db, document_id, user_id, chapter_info)]
    on the [progress] table:
<<
        existing = await db.execute(select(Progress).where(
            Progress.document_id == document_id,
            Progress.chapter_number == chapter_info.get('chapter_number', 1)))
        if existing.scalar_one_or_none():
            return
        progress = Progress(document_id=document_id, user_id=user_id,
                            chapter_number=..., chapter_title=...,
                            completion_percentage=0.0, time_spent_minutes=0,
                            is_locked=True)
        db.add(progress)
        await db.commit()
        ... (subsection rows)
>>
    [scalar_one_or_none] raises [MultipleResultsFound] when more than one
    row matches and returns the row (a truthy object) when exactly one
    does.  [Progress] is a [declarative_base()] class without an
    [is_locked] column: its constructor raises [TypeError] ("'is_locked'
    is an invalid keyword argument for Progress") before [db.add], so the
    method never writes to the table. *)
Definition _create_chapter_progress (db : list progress_row)
    (document_id user_id : Z) (ch : chapter) : PyResult unit :=
  match List.filter (same_chapter document_id ch) db with
  | [] => Raise TypeError
  | [_] => Ret tt
  | _ => Raise (RuntimeFailure "MultipleResultsFound")
  end.

(** The loop [for chapter_info in chapters: await self._create_chapter_progress(...)]. *)
Fixpoint create_all (db : list progress_row) (document_id user_id : Z)
    (chs : list chapter) : PyResult unit :=
  match chs with
  | [] => Ret tt
  | ch :: rest =>
      match _create_chapter_progress db document_id user_id ch with
      | Ret tt => create_all db document_id user_id rest
      | Raise e => Raise e
      end
  end.

(** [_llm_extract(toc_text, document_id, user_id, db)]; [reply] is how the
    call to the model ends:
<<
        try:
            ...
            for chapter_info in chapters:
                await self._create_chapter_progress(db, document_id, user_id, chapter_info)
            return chapters
        except json.JSONDecodeError as e:
            return None
        except Exception as e:
            return None
>>
    The loop raises only [TypeError] or [MultipleResultsFound], both
    caught by [except Exception]. *)
Definition _llm_extract (reply : LlmReply) (db : list progress_row)
    (document_id user_id : Z) : option (list chapter) :=
  match _llm_extract_reply reply with
  | None => None
  | Some chs =>
      match create_all db document_id user_id chs with
      | Ret tt => Some chs
      | Raise _ => None
      end
  end.

(** [extract_chapters_from_text(toc_text, document_id, user_id, db)]:
<<
        if not toc_text or len(toc_text) < 100:
            return []
        chapters = await self._llm_extract(toc_text, document_id, user_id, db)
        if chapters:
            ...
            return chapters
        else:
            return []
>>  *)
Definition extract_chapters_from_text (toc_text : pystr) (reply : LlmReply)
    (db : list progress_row) (document_id user_id : Z) : list chapter :=
  if length toc_text <? 100 then []
  else default [] (_llm_extract reply db document_id user_id).

(** [_retry_with_more_pages]: [retry] is the model's reply to all pages.
<<
        chapters = await self._llm_extract(toc_text, document_id, user_id, db)
        if chapters and len(chapters) >= 3:
            return chapters
        else:
            return []
>>  *)
Definition _retry_with_more_pages (retry : LlmReply) (db : list progress_row)
    (document_id user_id : Z) : list chapter :=
  match _llm_extract retry db document_id user_id with
  | Some chs => if 3 <=? length chs then chs else []
  | None => []
  end.

(** [extract_chapters(ocr_result, ...)] on [pages = ocr_result['pages']];
    [reply] is the model's reply to the selected TOC pages, [retry] its
    reply to all pages (which pages are selected only changes the prompt):
<<
        if not ocr_result or not ocr_result.get('pages'):
            return []
        ...
        chapters = await self._llm_extract(toc_text, document_id, user_id, db)
        if chapters:
            if len(chapters) < 3:
                return await self._retry_with_more_pages(pages, document_id, user_id, db)
            self._print_chapters(chapters)
            return chapters
        else:
            return []
>>  *)
Definition extract_chapters (pages : list OCREngine.page_result)
    (reply retry : LlmReply) (db : list progress_row) (document_id user_id : Z)
    : list chapter :=
  match pages with
  | [] => []
  | _ =>
      match _llm_extract reply db document_id user_id with
      | Some chs =>
          if length chs <? 3 then _retry_with_more_pages retry db document_id user_id
          else chs
      | None => []
      end
  end.

Section TocPages.

(** [self._is_likely_toc_page(text)] (regular-expression counts, not
    modelled). *)
Variable _is_likely_toc_page : string -> bool.

(** The loop of [_extract_continuous_toc_pages] over
    [range(start_idx, min(start_idx + 15, len(pages)))]:
<<
            is_first_page = (i == start_idx)
            if is_first_page or self._is_likely_toc_page(text):
                toc_pages.append(page)
                consecutive_non_toc = 0
            else:
                consecutive_non_toc += 1
                if consecutive_non_toc >= 3:
                    break
>>  *)
Fixpoint continuous_loop (is_first_page : bool) (ps : list OCREngine.page_result)
    (consecutive_non_toc : nat) : list OCREngine.page_result :=
  match ps with
  | [] => []
  | p :: ps' =>
      if is_first_page || _is_likely_toc_page (OCREngine.text p) then
        p :: continuous_loop false ps' 0
      else if 3 <=? S consecutive_non_toc then []
      else continuous_loop false ps' (S consecutive_non_toc)
  end.

(** The index of the first page with [page['page_num'] == start_page]. *)
Definition start_index (pages : list OCREngine.page_result) (start_page : nat)
    : option nat :=
  match list_find (fun p => OCREngine.page_num p = start_page) pages with
  | Some (i, _) => Some i
  | None => None
  end.

(** [_extract_continuous_toc_pages(pages, start_page)]. *)
Definition _extract_continuous_toc_pages (pages : list OCREngine.page_result)
    (start_page : nat) : list OCREngine.page_result :=
  match start_index pages start_page with
  | None => []
  | Some start_idx =>
      continuous_loop true (take (Nat.min (start_idx + 15) (length pages) - start_idx)
                              (drop start_idx pages)) 0
  end.

End TocPages.

(** [_expand_toc_pages(pages, start_page, max_pages)]:
<<
        end_idx = min(start_idx + max_pages, len(pages))
        return pages[start_idx:end_idx]
>>  *)
Definition _expand_toc_pages (pages : list OCREngine.page_result)
    (start_page max_pages : nat) : list OCREngine.page_result :=
  match start_index pages start_page with
  | None => []
  | Some start_idx =>
      let end_idx := Nat.min (start_idx + max_pages) (length pages) in
      take (end_idx - start_idx) (drop start_idx pages)
  end.

End ImprovedChapters.

(* ================================================================== *)
(** ** Chapter records of RobustChapterDivider (chapter_divider_robust.py) *)

Module RobustWrites.
Import Chapters ProgressTable.

(** The global namespace of chapter_divider_robust.py:
<<
import re
import json
from typing import List, Dict, Any
from sqlalchemy.ext.asyncio import AsyncSession
from sqlalchemy import select
from app.models.document import Document, Progress
from app.core.config import settings
class RobustChapterDivider: ...
>>  *)
Definition robust_globals : list string :=
  ["re"; "json"; "List"; "Dict"; "Any"; "AsyncSession"; "select";
   "Document"; "Progress"; "settings"; "RobustChapterDivider"]
  ++ PyScope.module_dunders.

(** [_create_chapter_and_subsections(db, document_id, user_id, chapter_info)]
    on the [progress] table (subsection rows not modelled):
<<
        try:
            user_result = await db.execute(select(User).where(User.id == user_id))
            ...
            progress = Progress(user_id=user_id, document_id=document_id,
                                chapter_number=chapter_info['chapter_number'], ...)
            db.add(progress)
            await db.commit()
            ...
        except Exception as e:
            print(f"❌ 创建章节进度失败: {e}")
>>
    [User] is not a local of the method; it is loaded from the module's
    globals. *)
Definition _create_chapter_and_subsections (db : list progress_row)
    (document_id user_id : Z) (chapter_info : chapter) : PyResult (list progress_row) :=
  match PyScope.lookup_global robust_globals "User" with
  | Raise e => if is_Exception e then Ret db else Raise e
  | Ret tt => Ret (db ++ [mk_row user_id document_id (chapter_number chapter_info)])
  end.

(** The record loop of [divide_document_into_chapters]:
<<
            for chapter_info in chapters:
                await self._create_chapter_and_subsections(
                    db, document_id, user_id, chapter_info
                )
>>  *)
Fixpoint create_chapters (db : list progress_row) (document_id user_id : Z)
    (chapters : list chapter) : PyResult (list progress_row) :=
  match chapters with
  | [] => Ret db
  | chapter_info :: rest =>
      match _create_chapter_and_subsections db document_id user_id chapter_info with
      | Ret db' => create_chapters db' document_id user_id rest
      | Raise e => Raise e
      end
  end.

End RobustWrites.

(* ================================================================== *)
(** ** Further steps of HybridDocumentProcessor *)

Module HybridSteps.
Import PyStr Chapters.

(** How a chapter-extraction call of [_ocr_path] ends, as the number it
    records: [chapters_count = len(chapters) if chapters else 0]; an
    [Exception] is caught by the [except Exception] around the step and
    leaves the count at 0. *)
Definition chapters_count (r : PyResult (list chapter)) : PyResult nat :=
  match r with
  | Ret chs => Ret (length chs)
  | Raise e => if is_Exception e then Ret 0 else Raise e
  end.

(** The chapter step of [_ocr_path]:
<<
            chapters_count = 0
            try:
                extractor = ImprovedChapterExtractor()
                if toc_text and len(toc_text) > 100:
                    chapters = await extractor.extract_chapters_from_text(toc_text=toc_text, ...)
                else:
                    chapters = await extractor.extract_chapters(ocr_result=ocr_result, ...)
                chapters_count = len(chapters) if chapters else 0
            except Exception as e:
                ...
>>
    [ocr_result] is [None] when the local [ocr_result] is unbound (it is only
    assigned in the [if not toc_text:] block): reading it raises
    [UnboundLocalError], a [NameError], caught by the [except].  [from_text]
    and [from_ocr] are how the two extractor calls end. *)
Definition ocr_path_chapters (toc_text : pystr)
    (ocr_result : option OCREngine.pdf_result)
    (from_text : PyResult (list chapter))
    (from_ocr : OCREngine.pdf_result -> PyResult (list chapter)) : PyResult nat :=
  if truthy toc_text && (100 <? length toc_text) then chapters_count from_text
  else
    match ocr_result with
    | None => chapters_count (Raise NameError)
    | Some r => chapters_count (from_ocr r)
    end.

(** The chapter step of [_ocr_path] after its bookmark step: when the
    outline gives a non-empty text, the [if not toc_text:] block (the only
    place that assigns [ocr_result]) is skipped and the chapter step runs
    with [ocr_result] unbound.  [None]: no outline text, the recognition
    block runs (not covered here). *)
Definition outline_chapters (get_toc : PyResult (list (Z * pystr * Z)))
    (from_text : PyResult (list chapter))
    (from_ocr : OCREngine.pdf_result -> PyResult (list chapter)) : option (PyResult nat) :=
  let toc_text := default [] (TextbookParser.ocr_path_bookmarks get_toc) in
  if truthy toc_text then Some (ocr_path_chapters toc_text None from_text from_ocr)
  else None.

(** The TOC text of [_fast_path]:
<<
            toc_text = ""
            try:
                parser = TextbookParser()
                parse_result = await parser.parse_textbook(file_path, db)
                toc_text = parse_result.get('toc_text', '')
                ...
            except Exception as e:
                toc_text = "\n\n".join([c.page_content for c in result.get('chunks', [])[:3]])
>>
    [chunks] are the page contents of the chunks of [process_uploaded_document]. *)
Definition _fast_path_toc_text (get_toc : PyResult (list (Z * pystr * Z)))
    (scan : TextbookParser.scan_result) (chunks : list pystr) : pystr :=
  match TextbookParser.parse_textbook get_toc scan with
  | Ret r => TextbookParser.toc_text r
  | Raise e => PyStrOps.join_with [10; 10]%N (take 3 chunks)
  end.

End HybridSteps.

(* ================================================================== *)
(** ** The status endpoint (app/api/endpoints/documents.py) *)

Module DocumentStatusEndpoint.

(** The global namespace of documents.py: its module-level imports,
    assignments and functions. *)
Definition documents_globals : list string :=
  ["APIRouter"; "Depends"; "UploadFile"; "File"; "HTTPException"; "status";
   "AsyncSession"; "text"; "Optional"; "tempfile"; "os";
   "get_db"; "async_session_maker";
   "calculate_md5_hash"; "get_document_by_md5"; "create_document";
   "get_or_create_user"; "update_document_status";
   "get_user_progress_for_document"; "create_progress";
   "process_uploaded_document"; "DocumentProcessor";
   "create_document_collection"; "add_document_chunks"; "get_current_user";
   "get_logger"; "DocumentUploadResponse"; "DocumentResponse";
   "ChapterResponse"; "ProgressCreate"; "User";
   "logger"; "router"; "DEFAULT_USER_EMAIL"; "DEFAULT_USERNAME";
   "upload_document"; "health_check"; "list_documents"; "get_document";
   "get_document_chapters"; "redivide_chapters"; "get_chapter_subsections";
   "delete_document"; "get_document_status"]
  ++ PyScope.module_dunders.

(** [get_document_status(document_id, current_user, db)]:
<<
    from sqlalchemy import select, text
    result = await db.execute(
        select(Document).where(Document.id == document_id)
    )
    ...
>>
    The import binds the locals [select] and [text]; [Document] is never
    assigned in the function, so it is loaded as a global.  [rest] is how
    the remainder of the body ends. *)
Definition get_document_status {A : Type} (rest : PyResult A) : PyResult A :=
  match PyScope.lookup_global documents_globals "Document" with
  | Raise e => Raise e
  | Ret tt => rest
  end.

End DocumentStatusEndpoint.

(* ================================================================== *)
(** * Proofs *)
(* ================================================================== *)

(** ** The recognition gate *)

Module GateProofs.
Import OCRSemaphore Upload.









(** (C10) A completed [OCRSemaphore.acquire] returns [True]: the only
    exception the awaited semaphore can raise is [CancelledError], which
    the [except Exception] clause does not catch.  Hence the [queued]
    branch of [upload_document] ([if not acquired]) is never taken. *)
Theorem acquire_never_false :
  (forall w s tid b s',
     acquire w s tid = Some (Ret b, s') -> b = true) /\
  (forall tid w g r g',
     upload_pdf true tid w g = Some (Ret r, g') -> r <> st_queued).
Proof.
  assert (Hacq : forall w s tid b s',
             acquire w s tid = Some (Ret b, s') -> b = true).
  { intros w s tid b s'. unfold acquire, sem_acquire.
    destruct w; simpl.
    - destruct (sem_value s); [discriminate|]. congruence.
    - discriminate. }
  split; [exact Hacq|].
  intros tid w g r g'. unfold upload_pdf.
  destruct (acquire w g tid) as [[[b|e] g1]|] eqn:Ha; try discriminate.
  rewrite (Hacq _ _ _ _ _ Ha). congruence.
Qed.

Lemma acquire_never_false_witness :
  acquire Acquired ocr_semaphore "doc_1" =
    Some (Ret true, mk 1 2 {["doc_1"]}) /\ true = true.
Proof.
  split; [reflexivity|].
  exact (proj1 acquire_never_false Acquired ocr_semaphore "doc_1" true _
           (eq_refl (acquire Acquired ocr_semaphore "doc_1"))).
Defined.

(** (C1) After a scanned PDF upload acquires the gate slot ["doc_1"], the
    background pipeline ends (success, caught error or cancellation)
    without releasing it: the id stays active.  After two such uploads
    have run to their end, the upload of a third scanned PDF stays
    suspended in [acquire]. *)
Theorem upload_leaks_gate_slot :
  forall o1 o2 : PipelineOutcome,
  exists fin1 g1 fin2 g2,
    upload_and_process true "doc_1" Acquired o1 ocr_semaphore
      = Some (Ret st_pending, fin1, g1) /\
    "doc_1" ∈ current_tasks g1 /\
    upload_and_process true "doc_2" Acquired o2 g1
      = Some (Ret st_pending, fin2, g2) /\
    "doc_1" ∈ current_tasks g2 /\ "doc_2" ∈ current_tasks g2 /\
    upload_pdf true "doc_3" Acquired g2 = None.
Proof.
  intros o1 o2.
  destruct o1, o2; simpl; eexists _, _, _, _;
    (split; [reflexivity|]); (split; [set_solver|]);
    (split; [reflexivity|]); repeat split; try set_solver; reflexivity.
Qed.

End GateProofs.

(** ** The text-layer validator *)

Module ValidatorProofs.
Import PyStr PdfValidator.

Lemma truthy_lstrip (s : pystr) :
  truthy (lstrip s) = has_non_whitespace s.
Proof.
  induction s as [|c s IH]; [reflexivity|].
  unfold has_non_whitespace in *; simpl.
  destruct (isspace c); simpl; [exact IH|reflexivity].
Qed.

Lemma has_non_whitespace_lstrip (s : pystr) :
  has_non_whitespace (lstrip s) = has_non_whitespace s.
Proof.
  induction s as [|c s IH]; [reflexivity|].
  unfold has_non_whitespace in *; simpl.
  destruct (isspace c) eqn:Hc; simpl; [exact IH|now rewrite Hc].
Qed.

Lemma has_non_whitespace_rev (s : pystr) :
  has_non_whitespace (rev s) = has_non_whitespace s.
Proof.
  unfold has_non_whitespace.
  induction s as [|c s IH]; [reflexivity|].
  simpl. rewrite existsb_app, IH. simpl.
  destruct (negb (isspace c)), (existsb _ s); reflexivity.
Qed.

Lemma truthy_rev (s : pystr) : truthy (rev s) = truthy s.
Proof.
  destruct s as [|c s]; [reflexivity|]. simpl.
  destruct (rev s); reflexivity.
Qed.

(** [text.strip()] is non-empty exactly when [text] has a non-whitespace
    character. *)
Lemma truthy_strip (s : pystr) :
  truthy (strip s) = has_non_whitespace s.
Proof.
  unfold strip. rewrite truthy_rev, truthy_lstrip,
    has_non_whitespace_rev, has_non_whitespace_lstrip. reflexivity.
Qed.

Lemma scan_pages_readable (pages : list pystr) tp ip smp :
  exists smp',
    scan_pages (map Some pages) tp ip smp =
      (tp + length (List.filter has_non_whitespace pages),
       ip + (length pages - length (List.filter has_non_whitespace pages)),
       smp', false).
Proof.
  revert tp ip smp.
  induction pages as [|s pages IH]; intros tp ip smp.
  - exists smp. simpl. f_equal. f_equal. f_equal; lia.
  - simpl. rewrite truthy_strip.
    pose proof (List.filter_length_le has_non_whitespace pages) as Hlen.
    destruct (has_non_whitespace s); simpl.
    + destruct (IH (S tp) ip (if truthy smp then smp else take 200 s))
        as [smp' ->].
      exists smp'. do 3 f_equal; lia.
    + destruct (IH tp (S ip) smp) as [smp' ->].
      exists smp'. do 3 f_equal; lia.
Qed.

(** (C5) On a readable PDF whose pages have the text layers [pages],
    [validate_pdf_before_upload] counts as text pages exactly the pages
    with a non-whitespace character, returns
    [text_ratio = text_pages / total_pages] (0 when there is no page), and
    [is_scan] holds exactly when [text_ratio < 0.2]. *)
Theorem validate_ratio_is_scan (pages : list pystr) :
  let r := validate_pdf_before_upload (Some (map Some pages)) in
  let tp := length (List.filter has_non_whitespace pages) in
  total_pages r = length pages /\
  text_pages r = tp /\
  text_ratio r =
    (if 0 <? length pages
     then inject_Z (Z.of_nat tp) / inject_Z (Z.of_nat (length pages))
     else 0)%Q /\
  (is_scan r = true <-> (text_ratio r < 1 # 5)%Q).
Proof.
  cbv zeta. unfold validate_pdf_before_upload.
  destruct (scan_pages_readable pages 0 0 []) as [smp Hs].
  rewrite length_map, Hs. simpl.
  split; [reflexivity|]. split; [reflexivity|]. split; [reflexivity|].
  rewrite negb_true_iff. split.
  - intros H. apply Qnot_le_lt. intros Hle.
    apply Qle_bool_iff in Hle. congruence.
  - intros Hlt. destruct (Qle_bool _ _) eqn:E; [|reflexivity].
    apply Qle_bool_iff in E. exfalso. apply (Qlt_not_le _ _ Hlt E).
Qed.

End ValidatorProofs.

(** ** Path selection of the orchestrator *)

Module PathProofs.
Import PyStr PdfValidator Hybrid.

Lemma readable_is_scan (pages : list pystr) :
  let v := validate_pdf_before_upload (Some (map Some pages)) in
  is_scan v = negb (Qle_bool (1 # 5) (text_ratio v)).
Proof.
  cbv zeta. unfold validate_pdf_before_upload.
  destruct (ValidatorProofs.scan_pages_readable pages 0 0 []) as [smp Hs].
  rewrite Hs. reflexivity.
Qed.

Lemma choose_path_fast_iff (v : PdfValidator.result) :
  choose_path v = FastPath <-> (1 # 10 <= text_ratio v)%Q.
Proof.
  unfold choose_path, TEXT_RATIO_THRESHOLD.
  destruct (Qle_bool _ _) eqn:E.
  - apply Qle_bool_iff in E. split; auto.
  - split; [discriminate|]. intros H. apply Qle_bool_iff in H. congruence.
Qed.

(** Ten pages, one of them with text: [text_ratio = 0.1]. *)
Definition ten_pages_one_text : list pystr :=
  [[65]%N] ++ repeat [] 9.

(** (C4) The orchestrator compares [text_ratio] with its own
    [TEXT_RATIO_THRESHOLD = 0.1], not with the validator's [0.2]: a readable
    PDF with [0.1 <= text_ratio < 0.2] is classified [is_scan], so
    [upload_document] takes the OCR gate for it ([ocr_semaphore.acquire]
    succeeds when a unit is free, the task id is recorded and the response
    says [pending]), and [process_document] still sends it down the fast
    path. *)
Theorem scan_pdf_takes_fast_path (pages : list pystr) (task_id : string)
    (g : OCRSemaphore.t) :
  let v := validate_pdf_before_upload (Some (map Some pages)) in
  (1 # 10 <= text_ratio v)%Q -> (text_ratio v < 1 # 5)%Q ->
  0 < OCRSemaphore.sem_value g ->
  is_scan v = true /\ choose_path v = FastPath /\
  exists g1, Upload.upload_pdf (is_scan v) task_id OCRSemaphore.Acquired g =
               Some (Ret st_pending, g1) /\
             task_id ∈ OCRSemaphore.current_tasks g1.
Proof.
  cbv zeta. intros Hlo Hhi Hg.
  pose proof (readable_is_scan pages) as Hr. cbv zeta in Hr.
  assert (Hs : is_scan (validate_pdf_before_upload (Some (map Some pages))) = true).
  { rewrite Hr.
    destruct (Qle_bool (1 # 5) _) eqn:E; [|reflexivity].
    apply Qle_bool_iff in E. exfalso. exact (Qlt_not_le _ _ Hhi E). }
  split; [exact Hs|]. split; [apply choose_path_fast_iff; exact Hlo|].
  rewrite Hs. unfold Upload.upload_pdf, OCRSemaphore.acquire, OCRSemaphore.sem_acquire.
  destruct g as [[|n] m X]; cbn in Hg; [lia|]. cbn.
  eexists. split; [reflexivity|]. cbn. set_solver.
Qed.

Lemma scan_pdf_takes_fast_path_witness :
  let v := validate_pdf_before_upload (Some (map Some ten_pages_one_text)) in
  is_scan v = true /\ choose_path v = FastPath /\
  exists g1, Upload.upload_pdf (is_scan v) "doc_1"%string OCRSemaphore.Acquired
               OCRSemaphore.ocr_semaphore = Some (Ret st_pending, g1) /\
             "doc_1"%string ∈ OCRSemaphore.current_tasks g1.
Proof.
  cbv zeta.
  assert (Hlo : (1 # 10 <= text_ratio (validate_pdf_before_upload
                                 (Some (map Some ten_pages_one_text))))%Q).
  { apply Qle_bool_iff. vm_compute. reflexivity. }
  assert (Hhi : (text_ratio (validate_pdf_before_upload
                   (Some (map Some ten_pages_one_text))) < 1 # 5)%Q).
  { apply Qlt_alt. vm_compute. reflexivity. }
  assert (Hg : 0 < OCRSemaphore.sem_value OCRSemaphore.ocr_semaphore).
  { cbn. lia. }
  exact (scan_pdf_takes_fast_path ten_pages_one_text "doc_1"%string
           OCRSemaphore.ocr_semaphore Hlo Hhi Hg).
Defined.

End PathProofs.

(** ** Recognition confidence *)

Module ConfidenceProofs.
Import PyStr OCREngine.

(** A scanned PDF without outline whose single recognised page has one
    line of confidence 0.45. *)
Definition low_confidence_run : list (nat * PageRecognition) :=
  [(0, Recognized [Some ("Chapter 1"%string, 45 # 100)])].

(** (C3) On the OCR path, a recognition run with [avg_confidence = 0.45],
    below [OCR_CONFIDENCE_THRESHOLD = 0.6], still ends with the document
    written as [completed] (with [ocr_confidence = 0.45]): the threshold
    is never consulted. *)
Theorem low_confidence_completes :
  (avg_confidence (process_pdf low_confidence_run) < Hybrid.OCR_CONFIDENCE_THRESHOLD)%Q /\
  Hybrid._ocr_path (Ret []) (Ret (process_pdf low_confidence_run)) =
    Hybrid.mk_end st_completed (Some (avg_confidence (process_pdf low_confidence_run))) true.
Proof. split; vm_compute; reflexivity. Qed.

(** Two recognised pages: one line of confidence 0.8, and no line at all. *)
Definition one_empty_page : list (nat * PageRecognition) :=
  [(0, Recognized [Some ("Contents"%string, 4 # 5)]); (1, Recognized [])].

(** (C6, counterexample) Both pages succeed, with confidences 0.8 and 0;
    their mean is 0.4 but [process_pdf] returns 0.8. *)
Lemma avg_confidence_skips_zero_pages :
  avg_confidence (process_pdf one_empty_page) == 4 # 5 /\
  spec_avg_confidence one_empty_page == 2 # 5 /\
  ~ (avg_confidence (process_pdf one_empty_page) ==
     spec_avg_confidence one_empty_page).
Proof.
  split; [vm_compute; reflexivity|]. split; [vm_compute; reflexivity|].
  vm_compute. discriminate.
Qed.

Lemma process_loop_confs todo results texts confs errs :
  (process_loop todo results texts confs errs).1.2 =
  confs ++ List.filter (fun c => negb (Qle_bool c 0))
              (omap page_confidence (map snd todo)).
Proof.
  revert results texts confs errs.
  induction todo as [|[p r] todo IH]; intros results texts confs errs.
  - simpl. by rewrite app_nil_r.
  - destruct r as [err|lines]; simpl.
    + rewrite IH. reflexivity.
    + rewrite IH. destruct (Qle_bool _ 0); simpl.
      * reflexivity.
      * by rewrite <- app_assoc.
Qed.

(** (C6, amended) [process_pdf] returns as [avg_confidence] the mean of the
    page confidences (each the mean of the page's line confidences, 0
    without lines) over the pages that succeeded with a confidence above 0,
    and 0 when there is no such page. *)
Theorem avg_confidence_positive_pages (todo : list (nat * PageRecognition)) :
  avg_confidence (process_pdf todo) =
  mean (List.filter (fun c => negb (Qle_bool c 0))
          (omap page_confidence (map snd todo))).
Proof.
  unfold process_pdf.
  pose proof (process_loop_confs todo [] [] [] []) as H.
  destruct (process_loop todo [] [] [] []) as [[[results texts] confs] errs].
  simpl in *. rewrite H. reflexivity.
Qed.

End ConfidenceProofs.

(** ** Outline (bookmark) tier *)

Module BookmarkProofs.
Import PyStr TextbookParser.

Lemma format_entry_typed (lvl : Z) (title : pystr) (page : Z) :
  exists line, Bookmark.format_entry (PyVal.VInt lvl) (PyVal.VStr title)
                 (PyVal.VInt page) = Ret line.
Proof. eexists. reflexivity. Qed.

Lemma format_entries_ok (entries : list (Z * pystr * Z)) :
  exists lines, format_entries entries = Ret lines.
Proof.
  induction entries as [|[[lvl title] page] entries [lines IH]].
  - eexists. reflexivity.
  - destruct (format_entry_typed lvl title page) as [line Hl].
    exists (line :: lines). cbn [format_entries]. rewrite Hl, IH. reflexivity.
Qed.

(** [_extract_bookmarks] fails on every non-empty outline: it reads the
    title ([item[1]]) as the level, and [title - 1] raises [TypeError]. *)
Lemma extract_bookmarks_fails (e : Z * pystr * Z) (es : list (Z * pystr * Z)) :
  _extract_bookmarks (Ret (e :: es)) = bm_failure.
Proof.
  destruct e as [[lvl title] page]. unfold _extract_bookmarks.
  destruct (PyVal.max_check _) as [[]|exc]; [|reflexivity].
  reflexivity.
Qed.

(** (C7) For every PDF with a non-empty outline, [TextbookParser.parse_textbook]
    does not return provenance ["bookmark"]: [_extract_bookmarks] fails
    and the result is the heuristic scan's, with source ["scan"].  The
    sibling bookmark step of [_ocr_path] does format such an outline. *)
Theorem parse_textbook_outline_scan (entries : list (Z * pystr * Z))
    (scan : scan_result) :
  entries <> [] ->
  parse_textbook (Ret entries) scan =
    Ret (mk_parse (scan_toc_text scan) "scan" (scan_pages scan)
           (scan_need_ai_guess scan)) /\
  is_Some (ocr_path_bookmarks (Ret entries)).
Proof.
  intros Hne. destruct entries as [|e es]; [contradiction|].
  split.
  - unfold parse_textbook. rewrite extract_bookmarks_fails. reflexivity.
  - unfold ocr_path_bookmarks.
    destruct (format_entries_ok (e :: es)) as [lines ->]. eexists. reflexivity.
Qed.

(** One outline entry: level 1, title "第一章 导论", page 1. *)
Definition one_entry_outline : list (Z * pystr * Z) :=
  [(1%Z, [31532; 19968; 31456; 32; 23548; 35770]%N, 1%Z)].

Definition empty_scan : scan_result := mk_scan [] [] true.

Lemma parse_textbook_outline_scan_witness :
  one_entry_outline <> [] /\
  parse_textbook (Ret one_entry_outline) empty_scan =
    Ret (mk_parse [] "scan" [] true).
Proof.
  split; [discriminate|].
  apply (proj1 (parse_textbook_outline_scan one_entry_outline empty_scan
                  ltac:(discriminate))).
Defined.

End BookmarkProofs.

(** ** Chapter numbering *)

Module ChapterProofs.
Import PyStr Chapters.





(** The write loop of [_llm_extract] goes through exactly when every
    chapter has exactly one row for the document. *)
Lemma create_all_ok (db : list ProgressTable.progress_row) (document_id user_id : Z)
    (chs : list chapter) :
  ImprovedChapters.create_all db document_id user_id chs = Ret tt <->
  Forall (fun ch => length (List.filter (ImprovedChapters.same_chapter document_id ch) db) = 1)
    chs.
Proof.
  induction chs as [|ch chs IH]; cbn [ImprovedChapters.create_all].
  - split; [constructor|reflexivity].
  - rewrite Forall_cons, <- IH. unfold ImprovedChapters._create_chapter_progress.
    destruct (List.filter _ db) as [|r1 [|r2 rs]]; cbn [length].
    + split; [discriminate|lia].
    + tauto.
    + split; [discriminate|lia].
Qed.







End ChapterProofs.

(** ** Contiguous TOC page selection *)

Module PageSelectProofs.
Import PageSelect.

Lemma insert_desc_elem (x p : PageScore) (l : list PageScore) :
  p ∈ insert_desc x l <-> p = x \/ p ∈ l.
Proof.
  induction l as [|y l IH]; simpl.
  - rewrite list_elem_of_singleton, elem_of_nil. tauto.
  - destruct (score y <=? score x); rewrite !elem_of_cons; [tauto|].
    rewrite IH. tauto.
Qed.

Lemma sort_desc_elem (p : PageScore) (l : list PageScore) :
  p ∈ sort_by_score_desc l <-> p ∈ l.
Proof.
  induction l as [|x l IH]; simpl; [tauto|].
  rewrite insert_desc_elem, IH, elem_of_cons. tauto.
Qed.





Lemma list_max_seq (a k : nat) : 0 < k -> list_max (seq a k) = a + k - 1.
Proof.
  induction k as [|k IH]; intros Hk; [lia|].
  destruct k as [|k]; [simpl; lia|].
  rewrite seq_S, list_max_app, IH by lia. simpl. lia.
Qed.

(** The forward expansion keeps a contiguous run starting at [a]. *)
Lemma expand_forward_run (rest selected : list PageScore) (a : nat) :
  0 < length selected < MAX_TOC_PAGES ->
  map page selected = seq a (length selected) ->
  forall sel nums,
    expand_forward rest selected (seq a (length selected)) = (sel, nums) ->
    map page sel = seq a (length sel) /\
    length selected <= length sel <= MAX_TOC_PAGES.
Proof.
  revert selected. induction rest as [|p rest IH]; intros selected Hlen Hrun sel nums He.
  - simpl in He. injection He as <- <-. split; [exact Hrun|lia].
  - cbn [expand_forward] in He. rewrite list_max_seq in He by lia.
    destruct (page p =? a + length selected - 1 + 1) eqn:Ep.
    + apply Nat.eqb_eq in Ep.
      assert (Hrun' : map page (selected ++ [p]) = seq a (length (selected ++ [p]))).
      { rewrite map_app, Hrun, length_app. cbn [map length].
        rewrite Nat.add_1_r, seq_S. f_equal. f_equal. lia. }
      assert (Hnums : seq a (length selected) ++ [page p] =
                      seq a (length (selected ++ [p]))).
      { rewrite length_app. cbn [length].
        rewrite Nat.add_1_r, seq_S. f_equal. f_equal. lia. }
      rewrite Hnums in He.
      destruct (MAX_TOC_PAGES <=? length (selected ++ [p])) eqn:Em.
      * injection He as <- <-. apply Nat.leb_le in Em.
        rewrite length_app in *. cbn [length] in *. unfold MAX_TOC_PAGES in *.
        split; [exact Hrun'|lia].
      * apply Nat.leb_gt in Em.
        destruct (IH (selected ++ [p]) ltac:(rewrite length_app in *; cbn [length] in *;
                                unfold MAX_TOC_PAGES in *; lia)
                    Hrun' sel nums He) as [Hs Hl].
        rewrite length_app in Hl. cbn [length] in Hl. split; [exact Hs|lia].
    + injection He as <- <-. split; [exact Hrun|lia].
Qed.





End PageSelectProofs.

(* ================================================================== *)
(** * Further properties of the modelled code *)
(* ================================================================== *)

(** ** The recognition gate: round trips and status *)

Module GateExtraProofs.
Import OCRSemaphore GateStatus.

(** An [acquire] that went through, followed by the [release] of the same
    id, gives back the gate as it was, provided the id was not active. *)
Theorem acquire_release_roundtrip (s : OCRSemaphore.t) (tid : string) :
  tid ∉ current_tasks s -> 0 < sem_value s ->
  exists s1, acquire Acquired s tid = Some (Ret true, s1) /\ release s1 tid = s.
Proof.
  destruct s as [v m X]; cbn [current_tasks sem_value]. intros Hnin Hv.
  destruct v as [|v]; [lia|].
  eexists. split; [reflexivity|].
  unfold release; cbn [current_tasks sem_value max_concurrent].
  case_decide as Hin; [|set_solver].
  f_equal. apply leibniz_equiv. set_solver.
Qed.

Lemma acquire_release_roundtrip_witness :
  ("doc_1" ∉ current_tasks ocr_semaphore) /\ 0 < sem_value ocr_semaphore /\
  (exists s1, acquire Acquired ocr_semaphore "doc_1" = Some (Ret true, s1) /\
              release s1 "doc_1" = ocr_semaphore).
Proof.
  split; [set_solver|]. split; [simpl; lia|].
  apply acquire_release_roundtrip; [set_solver|simpl; lia].
Defined.

(** Acquiring the same task id twice takes two units of the semaphore but
    records the id once; the first [release] gives one unit back and every
    further [release] of that id does nothing: one unit is lost for good. *)
Theorem double_acquire_loses_unit (s s1 s2 : OCRSemaphore.t) (tid : string)
    (r1 r2 : PyResult bool) (k : nat) :
  tid ∉ current_tasks s ->
  acquire Acquired s tid = Some (r1, s1) ->
  acquire Acquired s1 tid = Some (r2, s2) ->
  1 <= k ->
  Nat.iter k (fun g => release g tid) s2 =
    mk (sem_value s - 1) (max_concurrent s) (current_tasks s).
Proof.
  destruct s as [v m X]; cbn [current_tasks sem_value max_concurrent].
  intros Hnin Ha1 Ha2 Hk.
  unfold acquire, sem_acquire in Ha1; cbn [sem_value] in Ha1.
  destruct v as [|v]; [discriminate|]. injection Ha1 as <- <-.
  unfold acquire, sem_acquire in Ha2; cbn [sem_value] in Ha2.
  destruct v as [|v]; [discriminate|]. injection Ha2 as <- <-.
  destruct k as [|k]; [lia|].
  replace (S (S v) - 1) with (S v) by lia.
  induction k as [|k IH].
  - simpl. unfold release; cbn [current_tasks sem_value max_concurrent].
    case_decide as Hin; [|set_solver].
    f_equal. apply leibniz_equiv. set_solver.
  - change (Nat.iter (S (S k)) (fun g => release g tid)
              (mk v m ({[tid]} ∪ ({[tid]} ∪ X))))
      with (release (Nat.iter (S k) (fun g => release g tid)
              (mk v m ({[tid]} ∪ ({[tid]} ∪ X)))) tid).
    rewrite IH by lia. unfold release; cbn [current_tasks].
    case_decide; [set_solver|reflexivity].
Qed.

Lemma double_acquire_loses_unit_witness :
  exists s1 s2 r1 r2,
    acquire Acquired ocr_semaphore "doc_1" = Some (r1, s1) /\
    acquire Acquired s1 "doc_1" = Some (r2, s2) /\
    Nat.iter 3 (fun g => release g "doc_1") s2 =
      mk (sem_value ocr_semaphore - 1) (max_concurrent ocr_semaphore)
         (current_tasks ocr_semaphore).
Proof.
  do 4 eexists. split; [reflexivity|]. split; [reflexivity|].
  eapply (double_acquire_loses_unit ocr_semaphore _ _ "doc_1" _ _ 3);
    [set_solver|reflexivity|reflexivity|lia].
Defined.



End GateExtraProofs.

(** ** The text-layer validator: counts, sample and failures *)

Module ValidatorExtraProofs.
Import PyStr PdfValidator.

Lemma has_non_whitespace_nonempty (s : pystr) :
  has_non_whitespace s = true -> s <> [].
Proof. destruct s; [discriminate|congruence]. Qed.

Lemma truthy_take (n : nat) (s : pystr) :
  0 < n -> s <> [] -> truthy (take n s) = true.
Proof. destruct n, s; simpl; try lia; congruence. Qed.

(** The sample accumulated by the page loop. *)
Lemma scan_pages_sample (pages : list pystr) tp ip smp :
  (scan_pages (map Some pages) tp ip smp).1.2 =
  if truthy smp then smp
  else match List.find has_non_whitespace pages with
       | Some t => take 200 t
       | None => []
       end.
Proof.
  revert tp ip smp.
  induction pages as [|s pages IH]; intros tp ip smp.
  - simpl. destruct (truthy smp) eqn:E; [reflexivity|].
    destruct smp; [reflexivity|discriminate].
  - cbn [map scan_pages List.find]. rewrite ValidatorProofs.truthy_strip.
    destruct (has_non_whitespace s) eqn:Hs.
    + rewrite IH. destruct (truthy smp) eqn:Es; [by rewrite Es|].
      rewrite truthy_take by (try lia; by apply has_non_whitespace_nonempty).
      reflexivity.
    + apply IH.
Qed.

(** A page that raises ends the loop with the [raised] flag set. *)
Lemma scan_pages_raise (pre : list pystr) (post : page_texts) tp ip smp :
  (scan_pages (map Some pre ++ None :: post) tp ip smp).2 = true.
Proof.
  revert tp ip smp.
  induction pre as [|s pre IH]; intros tp ip smp; [reflexivity|].
  cbn [map app scan_pages]. destruct (truthy (strip s)); apply IH.
Qed.

(** On a readable PDF every page is counted once, as a text page or as an
    image page, and [has_text] holds exactly when some page is a text
    page. *)
Theorem validate_counts_pages (pages : list pystr) :
  let r := validate_pdf_before_upload (Some (map Some pages)) in
  text_pages r + image_pages r = total_pages r /\
  has_text r = (0 <? text_pages r).
Proof.
  cbv zeta. unfold validate_pdf_before_upload.
  destruct (ValidatorProofs.scan_pages_readable pages 0 0 []) as [smp Hs].
  rewrite length_map, Hs. cbn [text_pages image_pages total_pages has_text].
  pose proof (List.filter_length_le has_non_whitespace pages). split; [lia|].
  reflexivity.
Qed.

(** On a readable PDF, [sample_text] is the first 200 characters of the
    first page that has a non-whitespace character, and empty when there
    is no such page. *)
Theorem validate_sample_text (pages : list pystr) :
  sample_text (validate_pdf_before_upload (Some (map Some pages))) =
  match List.find has_non_whitespace pages with
  | Some t => take 200 t
  | None => []
  end.
Proof.
  unfold validate_pdf_before_upload.
  pose proof (scan_pages_sample pages 0 0 []) as Hsmp.
  destruct (ValidatorProofs.scan_pages_readable pages 0 0 []) as [smp Hs].
  rewrite Hs in Hsmp |- *. simpl in Hsmp. rewrite <- Hsmp. reflexivity.
Qed.

(** When the PDF cannot be opened or one of its pages raises, the
    validator reports [is_scan = False], [has_text = False] and
    [text_ratio = 0]: [upload_document] then does not go through the
    recognition gate (the response status is [processing] and the gate is
    untouched), while [process_document] picks the recognition path. *)
Theorem validation_failure_bypasses_gate (doc : option page_texts) :
  (doc = None \/ exists pre post, doc = Some (map Some pre ++ None :: post)) ->
  let v := validate_pdf_before_upload doc in
  is_scan v = false /\ has_text v = false /\ text_ratio v = 0%Q /\
  Hybrid.choose_path v = Hybrid.OcrPath /\
  (forall tid w g, Upload.upload_pdf (is_scan v) tid w g = Some (Ret st_processing, g)).
Proof.
  intros Hdoc. cbv zeta.
  assert (Hv : is_scan (validate_pdf_before_upload doc) = false /\
               has_text (validate_pdf_before_upload doc) = false /\
               text_ratio (validate_pdf_before_upload doc) = 0%Q).
  { destruct Hdoc as [->|(pre & post & ->)]; [repeat split|].
    unfold validate_pdf_before_upload.
    pose proof (scan_pages_raise pre post 0 0 []) as Hr.
    destruct (scan_pages _ 0 0 []) as [[[tp ip] smp] raised].
    simpl in Hr. subst raised. repeat split. }
  destruct Hv as (Hs & Ht & Hq).
  split; [exact Hs|]. split; [exact Ht|]. split; [exact Hq|]. split.
  - unfold Hybrid.choose_path. rewrite Hq. reflexivity.
  - intros tid w g. rewrite Hs. reflexivity.
Qed.

Lemma validation_failure_bypasses_gate_witness :
  is_scan (validate_pdf_before_upload (Some [Some [65%N]; None])) = false /\
  Hybrid.choose_path (validate_pdf_before_upload (Some [Some [65%N]; None])) =
    Hybrid.OcrPath.
Proof.
  assert (H := validation_failure_bypasses_gate (Some [Some [65%N]; None])
                 (or_intror (ex_intro _ [[65%N]] (ex_intro _ [] eq_refl)))).
  cbv zeta in H. destruct H as (H1 & _ & _ & H2 & _). split; [exact H1|exact H2].
Defined.

End ValidatorExtraProofs.

(** ** The recognition engine: page accounting, confidence range, page lists *)

Module OCRExtraProofs.
Import OCREngine.

Lemma process_loop_counts todo results texts confs errs :
  let '(results', texts', confs', errs') := process_loop todo results texts confs errs in
  length results' + length errs' = length results + length errs + length todo /\
  (Forall (fun p => success p = true /\ error p = None) results ->
   Forall (fun p => success p = true /\ error p = None) results').
Proof.
  revert results texts confs errs.
  induction todo as [|[p r] todo IH]; intros results texts confs errs.
  - simpl. split; [lia|auto].
  - cbn [process_loop]. destruct r as [err|lines]; cbn [process_pdf_page success].
    + specialize (IH results texts confs (errs ++ [default "" (error (process_pdf_page p (RenderFailed err)))])).
      destruct (process_loop _ _ _ _ _) as [[[r1 t1] c1] e1].
      destruct IH as [IHl IHf]. rewrite length_app in IHl. cbn [length] in *.
      split; [lia|exact IHf].
    + match goal with
      | |- context [process_loop todo ?R ?T ?C ?E] =>
          specialize (IH R T C E)
      end.
      destruct (process_loop _ _ _ _ _) as [[[r1 t1] c1] e1].
      destruct IH as [IHl IHf]. rewrite length_app in IHl. cbn [length] in *.
      split; [lia|]. intros Hf. apply IHf. apply Forall_app. split; [exact Hf|].
      constructor; [split; reflexivity|constructor].
Qed.

(** [process_pdf] accounts for every page it was asked for: when the
    file opens, [success] is [True] and each page is either in [pages] (as
    a page that succeeded, without error) or has an entry in [errors], so
    [processed_pages + len(errors)] is the number of pages processed; when
    the [try] raises, [success] is [False], no page is processed and
    [errors] holds the exception's message alone. *)
Theorem process_pdf_accounts_pages (opened : string + list (nat * PageRecognition)) :
  let r := process_pdf_or_error opened in
  match opened with
  | inr todo =>
      pdf_success r = true /\
      processed_pages r + length (errors r) = length todo /\
      length (pages r) = processed_pages r /\
      Forall (fun p => success p = true /\ error p = None) (pages r)
  | inl msg =>
      pdf_success r = false /\ processed_pages r = 0 /\ pages r = [] /\
      errors r = [msg]
  end.
Proof.
  cbv zeta. destruct opened as [msg|todo]; [repeat split|].
  unfold process_pdf_or_error, process_pdf.
  pose proof (process_loop_counts todo [] [] [] []) as H.
  destruct (process_loop todo [] [] [] []) as [[[results texts] confs] errs].
  destruct H as [Hl Hf]. cbn [pdf_success processed_pages errors pages length] in *.
  split; [reflexivity|]. split; [lia|]. split; [reflexivity|]. apply Hf. constructor.
Qed.

Lemma Qsum_bounds (l : list Q) :
  Forall (fun c => 0 <= c <= 1)%Q l ->
  (0 <= Qsum l <= inject_Z (Z.of_nat (length l)))%Q.
Proof.
  induction 1 as [|x l [Hx0 Hx1] _ [IH0 IH1]]; simpl.
  - split; apply Qle_refl.
  - split.
    + apply Qle_trans with (0 + 0)%Q; [apply Qle_refl|].
      apply Qplus_le_compat; assumption.
    + apply Qle_trans with (1 + inject_Z (Z.of_nat (length l)))%Q.
      * apply Qplus_le_compat; assumption.
      * unfold Qle, Qplus, inject_Z. simpl. lia.
Qed.

Lemma mean_bounds (l : list Q) :
  Forall (fun c => 0 <= c <= 1)%Q l -> (0 <= mean l <= 1)%Q.
Proof.
  intros Hl. destruct l as [|x l'] eqn:El.
  - simpl. split; discriminate.
  - rewrite <- El in *. unfold mean. rewrite El. rewrite <- El.
    destruct (Qsum_bounds l Hl) as [H0 H1].
    assert (Hpos : (0 < inject_Z (Z.of_nat (length l)))%Q).
    { rewrite El. unfold Qlt, inject_Z. simpl. lia. }
    split.
    + apply Qle_shift_div_l; [exact Hpos|]. rewrite Qmult_0_l. exact H0.
    + apply Qle_shift_div_r; [exact Hpos|]. rewrite Qmult_1_l. exact H1.
Qed.

(** When every recognised line has a confidence between 0 and 1, the page
    confidences and [avg_confidence] of [process_pdf] are between 0 and 1
    as well. *)
Theorem avg_confidence_in_unit_interval (todo : list (nat * PageRecognition)) :
  (forall p lines l c, (p, Recognized lines) ∈ todo -> Some (l, c) ∈ lines ->
                       (0 <= c <= 1)%Q) ->
  (0 <= avg_confidence (process_pdf todo) <= 1)%Q.
Proof.
  intros Hlines. unfold process_pdf.
  pose proof (ConfidenceProofs.process_loop_confs todo [] [] [] []) as Hc.
  destruct (process_loop todo [] [] [] []) as [[[results texts] confs] errs].
  cbn [avg_confidence]. simpl in Hc. rewrite Hc.
  apply mean_bounds. apply Forall_forall. intros c Hin.
  apply list_elem_of_In, filter_In in Hin as [Hin _].
  apply list_elem_of_In, list_elem_of_omap in Hin as (r & Hr & Hpc).
  apply list_elem_of_In, in_map_iff in Hr as ([p r'] & <- & Hpr).
  apply list_elem_of_In in Hpr. cbn [snd] in Hpc.
  destruct r' as [err|lines]; [discriminate|].
  injection Hpc as <-. apply mean_bounds. apply Forall_forall. intros x Hx.
  apply list_elem_of_In, in_map_iff in Hx as ([l x'] & <- & Hx).
  apply list_elem_of_In in Hx.
  unfold line_list in Hx. apply list_elem_of_omap in Hx as (o & Ho & Hid).
  unfold id in Hid. subst o.
  exact (Hlines p lines l x' Hpr Ho).
Qed.

Lemma avg_confidence_in_unit_interval_witness :
  (0 <= avg_confidence (process_pdf
          [(0%nat, Recognized [Some ("Contents"%string, 9 # 10)])]) <= 1)%Q.
Proof.
  apply avg_confidence_in_unit_interval.
  intros p lines l c Hin Hl.
  apply list_elem_of_singleton in Hin. injection Hin as -> ->.
  apply list_elem_of_singleton in Hl. injection Hl as -> ->.
  split; vm_compute; discriminate.
Defined.

(** The page list of the recognition path ([pages_to_ocr], 1-based, from
    [_ocr_path]) is turned by [process_pdf] into the 0-based pages
    [0 .. min(60, total_pages) - 1]: the first [min(60, total_pages)]
    pages of the document, each once. *)
Theorem ocr_path_pages_first_60 (total_pages : Z) :
  OCRPages.pages_to_process total_pages (Some (OCRPages.pages_to_ocr total_pages)) =
  PyStrOps.range 0 (Z.min 60 total_pages).
Proof.
  unfold OCRPages.pages_to_process, OCRPages.pages_to_ocr, OCRPages.MAX_SCAN_PAGES,
    PyStrOps.range.
  rewrite map_map.
  replace (Z.min (60 + 1) (total_pages + 1) - 1)%Z
    with (Z.min 60 total_pages - 0)%Z by lia.
  apply map_ext. intros i. lia.
Qed.

End OCRExtraProofs.

(** ** TOC page selection: range, size and order of the result *)

Module PageSelectExtraProofs.
Import PageSelect.

Lemma insert_desc_perm (x : PageScore) (l : list PageScore) :
  insert_desc x l ≡ₚ x :: l.
Proof.
  induction l as [|y l IH]; simpl; [reflexivity|].
  destruct (score y <=? score x); [reflexivity|].
  rewrite IH. constructor.
Qed.

Lemma sort_desc_perm (l : list PageScore) : sort_by_score_desc l ≡ₚ l.
Proof.
  induction l as [|x l IH]; simpl; [reflexivity|].
  rewrite insert_desc_perm, IH. reflexivity.
Qed.

Lemma insert_asc_perm (x : PageScore) (l : list PageScore) :
  insert_asc x l ≡ₚ x :: l.
Proof.
  induction l as [|y l IH]; simpl; [reflexivity|].
  destruct (page x <=? page y); [reflexivity|].
  rewrite IH. constructor.
Qed.

Lemma sort_by_page_perm (l : list PageScore) : sort_by_page l ≡ₚ l.
Proof.
  induction l as [|x l IH]; simpl; [reflexivity|].
  rewrite insert_asc_perm, IH. reflexivity.
Qed.

(** Ascending page order. *)
Definition page_le (a b : PageScore) : Prop := page a <= page b.

Lemma insert_asc_sorted (x : PageScore) (l : list PageScore) :
  Sorted page_le l -> Sorted page_le (insert_asc x l).
Proof.
  induction l as [|y l IH]; intros Hs; simpl.
  - repeat constructor.
  - destruct (page x <=? page y) eqn:E.
    + apply Nat.leb_le in E. constructor; [exact Hs|]. constructor. exact E.
    + apply Nat.leb_gt in E. apply Sorted_inv in Hs as [Hl Hhd].
      constructor; [exact (IH Hl)|].
      destruct l as [|z l']; simpl.
      * constructor. unfold page_le. lia.
      * destruct (page x <=? page z); constructor; unfold page_le.
        -- lia.
        -- by inversion Hhd.
Qed.

Lemma sort_by_page_sorted (l : list PageScore) : Sorted page_le (sort_by_page l).
Proof.
  induction l as [|x l IH]; simpl; [constructor|].
  by apply insert_asc_sorted.
Qed.

Lemma existsb_page (n : nat) (nums : list nat) :
  existsb (Nat.eqb n) nums = true <-> n ∈ nums.
Proof.
  rewrite existsb_exists, list_elem_of_In. split.
  - intros (m & Hm & E). apply Nat.eqb_eq in E. by subst.
  - intros Hn. exists n. split; [exact Hn|apply Nat.eqb_refl].
Qed.

(** The forward expansion only appends pages of [rest], and keeps [nums]
    the list of the selected pages' numbers. *)
Lemma expand_forward_sub (rest selected : list PageScore) (nums : list nat) :
  nums = map page selected ->
  forall sel nums',
    expand_forward rest selected nums = (sel, nums') ->
    nums' = map page sel /\ selected `prefix_of` sel /\
    (forall x, x ∈ sel -> x ∈ selected \/ x ∈ rest).
Proof.
  revert selected nums.
  induction rest as [|p rest IH]; intros selected nums Hn sel nums' He.
  - simpl in He. injection He as <- <-. split; [exact Hn|].
    split; [reflexivity|auto].
  - cbn [expand_forward] in He.
    destruct (page p =? list_max nums + 1).
    + assert (Hn' : nums ++ [page p] = map page (selected ++ [p]))
        by (rewrite map_app; by subst).
      destruct (MAX_TOC_PAGES <=? length (selected ++ [p])).
      * injection He as <- <-. split; [exact Hn'|]. split.
        -- by exists [p].
        -- intros x Hx. apply elem_of_app in Hx as [Hx|Hx]; [auto|].
           apply list_elem_of_singleton in Hx. subst. right. apply elem_of_cons. auto.
      * destruct (IH _ _ Hn' sel nums' He) as (Hs1 & Hs2 & Hs3).
        split; [exact Hs1|]. split.
        -- etrans; [|exact Hs2]. by exists [p].
        -- intros x Hx. destruct (Hs3 x Hx) as [Hx'|Hx'].
           ++ apply elem_of_app in Hx' as [Hx'|Hx']; [auto|].
              apply list_elem_of_singleton in Hx'. subst. right. apply elem_of_cons. auto.
           ++ right. apply elem_of_cons. auto.
    + injection He as <- <-. split; [exact Hn|]. split; [reflexivity|auto].
Qed.

(** The backfill appends candidates whose page is not selected yet, one
    page number at most once, and stops at two pages. *)
Lemma backfill_spec (cands selected : list PageScore) (nums : list nat) :
  nums = map page selected -> NoDup nums ->
  let out := backfill cands selected nums in
  (exists Y, out = selected ++ Y /\ forall y, y ∈ Y -> y ∈ cands) /\
  NoDup (map page out) /\
  (length selected < 2 -> length out <= 2) /\
  ((exists c, c ∈ cands /\ page c ∉ nums) -> length selected < 2 ->
   S (length selected) <= length out).
Proof.
  revert selected nums.
  induction cands as [|p cands IH]; intros selected nums Hn Hnd; cbv zeta; cbn [backfill].
  - split; [exists []; split; [by rewrite app_nil_r|]; intros y Hy;
            apply elem_of_nil in Hy; contradiction|].
    split; [by subst|]. split; [lia|].
    intros (c & Hc & _). apply elem_of_nil in Hc. contradiction.
  - destruct (existsb (Nat.eqb (page p)) nums) eqn:Ep.
    + apply existsb_page in Ep.
      destruct (IH selected nums Hn Hnd) as ((Y & HY & HYc) & Hnd' & Hl & Hg).
      split; [exists Y; split; [exact HY|]; intros y Hy; apply elem_of_cons; auto|].
      split; [exact Hnd'|]. split; [exact Hl|].
      intros (c & Hc & Hcn) Hlen. apply Hg; [|exact Hlen].
      exists c. split; [|exact Hcn].
      apply elem_of_cons in Hc as [->|Hc]; [contradiction|exact Hc].
    + assert (Hpn : page p ∉ nums) by (intros Hin; apply existsb_page in Hin; congruence).
      assert (Hnd2 : NoDup (nums ++ [page p])).
      { apply NoDup_app. split; [exact Hnd|]. split; [|apply NoDup_singleton].
        intros x Hx Hx'. apply list_elem_of_singleton in Hx'. subst. contradiction. }
      rewrite length_app; cbn [length].
      destruct (2 <=? length selected + 1) eqn:E2.
      * apply Nat.leb_le in E2.
        split; [exists [p]; split; [reflexivity|]; intros y Hy;
                apply list_elem_of_singleton in Hy; subst; apply elem_of_cons; auto|].
        split; [rewrite map_app; by subst|].
        rewrite length_app; cbn [length]. split; lia.
      * apply Nat.leb_gt in E2.
        assert (Hn2 : nums ++ [page p] = map page (selected ++ [p]))
          by (rewrite map_app; by subst).
        destruct (IH (selected ++ [p]) (nums ++ [page p]) Hn2 Hnd2)
          as ((Y & HY & HYc) & Hnd' & Hl & Hg).
        rewrite length_app in Hl; cbn [length] in Hl.
        split.
        { exists (p :: Y). split; [by rewrite HY, <- app_assoc|].
          intros y Hy. apply elem_of_cons in Hy as [->|Hy]; apply elem_of_cons; auto. }
        split; [exact Hnd'|]. split; [lia|].
        intros _ _. rewrite HY, length_app, length_app. cbn [length]. lia.
Qed.

(** What [expansion] yields: nothing when no page reaches [MIN_SCORE],
    never an exception, otherwise a run of 1 to 20 consecutive pages of
    the input, anchored at a page reaching [MIN_SCORE], with the list of
    their numbers. *)
Lemma expansion_spec (ps : list PageScore) :
  match expansion ps with
  | None => List.filter (fun p => MIN_SCORE <=? score p) (sort_by_score_desc ps) = []
  | Some (Raise _) => False
  | Some (Ret (sel, nums)) =>
      nums = map page sel /\
      (forall x, x ∈ sel -> x ∈ ps) /\
      1 <= length sel <= MAX_TOC_PAGES /\
      NoDup (map page sel)
  end.
Proof.
  unfold expansion.
  destruct (List.filter _ (sort_by_score_desc ps)) as [|top rest] eqn:Hf; [reflexivity|].
  cbn [first_index_with_score]. rewrite Nat.eqb_refl. cbn [lookup list_lookup Nat.ltb Nat.leb].
  destruct (expand_forward (drop 1 (top :: rest)) [top] [page top]) as [sel nums] eqn:He.
  destruct (expand_forward_sub (drop 1 (top :: rest)) [top] [page top] eq_refl sel nums He)
    as (Hn & Hpre & Hsub).
  destruct (PageSelectProofs.expand_forward_run (drop 1 (top :: rest)) [top] (page top)
              ltac:(unfold MAX_TOC_PAGES; simpl; lia) eq_refl sel nums He) as [Hrun Hlen].
  assert (Hfs : forall x, x ∈ top :: rest -> x ∈ ps).
  { intros x Hx. rewrite <- Hf in Hx.
    apply list_elem_of_In, filter_In in Hx as [Hx _].
    apply list_elem_of_In in Hx. by apply PageSelectProofs.sort_desc_elem. }
  split; [exact Hn|]. split.
  - intros x Hx. apply Hfs. destruct (Hsub x Hx) as [Hx'|Hx'].
    + apply list_elem_of_singleton in Hx'. subst. apply elem_of_cons. auto.
    + cbn [drop skipn] in Hx'. apply elem_of_cons. auto.
  - split; [cbn [length] in Hlen; lia|]. rewrite Hrun. apply NoDup_seq.
Qed.

(** Everything the callers rely on about [_select_best_pages]. *)
Lemma select_best_pages_spec (ps : list PageScore) :
  exists out,
    _select_best_pages ps = Ret out /\
    (forall x, x ∈ out -> x ∈ ps) /\
    length out <= MAX_TOC_PAGES /\
    (out = [] <-> ps = []) /\
    (NoDup (map page ps) -> NoDup (map page out)) /\
    ((exists p q, p ∈ ps /\ q ∈ ps /\ page p <> page q) -> 2 <= length out) /\
    ((exists p, p ∈ ps /\ MIN_SCORE <= score p) -> Sorted page_le out).
Proof.
  destruct ps as [|p0 ps0] eqn:Eps.
  { exists []. split; [reflexivity|]. split; [intros x Hx; exact Hx|].
    split; [unfold MAX_TOC_PAGES; simpl; lia|]. split; [tauto|].
    split; [intros _; constructor|]. split.
    - intros (p & q & Hp & _). apply elem_of_nil in Hp. contradiction.
    - intros _. constructor. }
  rewrite <- Eps.
  assert (Hne : ps <> []) by (rewrite Eps; discriminate).
  assert (Hsel : _select_best_pages ps =
            match expansion ps with
            | None => Ret (take 2 (sort_by_score_desc ps))
            | Some (Raise e) => Raise e
            | Some (Ret (selected, nums)) =>
                Ret (sort_by_page (if length selected <? 2
                                   then backfill (sort_by_score_desc ps) selected nums
                                   else selected))
            end) by (rewrite Eps; reflexivity).
  rewrite Hsel. clear Hsel.
  pose proof (sort_desc_perm ps) as Hperm.
  assert (Hsorted_elem : forall x, x ∈ sort_by_score_desc ps -> x ∈ ps)
    by (intros x Hx; by rewrite Hperm in Hx).
  assert (Hps2 : (exists p q, p ∈ ps /\ q ∈ ps /\ page p <> page q) -> 2 <= length ps).
  { intros (p & q & Hp & Hq & Hpq). rewrite Eps in Hp, Hq |- *.
    destruct ps0 as [|p1 ps1]; [|simpl; lia].
    apply list_elem_of_singleton in Hp, Hq. subst. contradiction. }
  pose proof (expansion_spec ps) as Hexp.
  destruct (expansion ps) as [[[sel nums]|e]|] eqn:Hex; [| contradiction |].
  - destruct Hexp as (Hn & Hsub & Hlen & Hnd).
    set (sel' := if length sel <? 2 then backfill (sort_by_score_desc ps) sel nums else sel).
    assert (Hsel' : (forall x, x ∈ sel' -> x ∈ ps) /\ 1 <= length sel' <= MAX_TOC_PAGES /\
                    NoDup (map page sel') /\
                    ((exists p q, p ∈ ps /\ q ∈ ps /\ page p <> page q) -> 2 <= length sel')).
    { unfold sel'. destruct (length sel <? 2) eqn:E2.
      - apply Nat.ltb_lt in E2.
        assert (Hndn : NoDup nums) by (by subst).
        destruct (backfill_spec (sort_by_score_desc ps) sel nums Hn Hndn)
          as ((Y & HY & HYc) & HndY & Hl & Hg).
        split.
        { intros x Hx. rewrite HY in Hx. apply elem_of_app in Hx as [Hx|Hx]; auto. }
        split.
        { rewrite HY, length_app. split; [lia|].
          specialize (Hl E2). rewrite HY, length_app in Hl. unfold MAX_TOC_PAGES. lia. }
        split; [exact HndY|].
        intros (p & q & Hp & Hq & Hpq).
        assert (Hs1 : length sel = 1) by lia.
        destruct sel as [|s [|s' sel0]]; cbn [length] in Hs1; try lia.
        cbn [map] in Hn. subst nums.
        enough (Hc : exists c, c ∈ sort_by_score_desc ps /\ page c ∉ [page s]).
        { specialize (Hg Hc E2). cbn [length] in Hg. lia. }
        destruct (decide (page p = page s)) as [Eqp|Neqp].
        + exists q. split; [by rewrite Hperm|].
          intros Hin. apply list_elem_of_singleton in Hin. congruence.
        + exists p. split; [by rewrite Hperm|].
          intros Hin. apply list_elem_of_singleton in Hin. congruence.
      - apply Nat.ltb_ge in E2. split; [exact Hsub|]. split; [lia|].
        split; [exact Hnd|]. intros _. exact E2. }
    destruct Hsel' as (Hsub' & Hlen' & Hnd' & Hge').
    pose proof (sort_by_page_perm sel') as Hp'.
    exists (sort_by_page sel'). split; [reflexivity|]. split.
    { intros x Hx. rewrite Hp' in Hx. auto. }
    split; [rewrite Hp'; lia|]. split.
    { split; [|contradiction]. intros Hnil.
      apply Permutation_length in Hp'. rewrite Hnil in Hp'. simpl in Hp'. lia. }
    split; [intros _; by rewrite (Permutation_map page Hp')|].
    split; [intros H2; rewrite Hp'; auto|].
    intros _. apply sort_by_page_sorted.
  - exists (take 2 (sort_by_score_desc ps)). split; [reflexivity|]. split.
    { intros x Hx. apply Hsorted_elem. eapply elem_of_sublist; [exact Hx|].
      apply sublist_take. }
    split; [rewrite length_take; unfold MAX_TOC_PAGES; lia|]. split.
    { split; [|contradiction]. intros Hnil.
      apply (f_equal length) in Hnil. rewrite length_take in Hnil.
      apply Permutation_length in Hperm. rewrite Hperm, Eps in Hnil.
      simpl in Hnil. lia. }
    split.
    { intros Hnd. rewrite <- firstn_map.
      eapply sublist_NoDup; [|apply sublist_take].
      by rewrite (Permutation_map page Hperm). }
    split.
    { intros H2. specialize (Hps2 H2). rewrite length_take.
      apply Permutation_length in Hperm. lia. }
    intros (p & Hp & Hs). exfalso.
    assert (Hin : p ∈ List.filter (fun p => MIN_SCORE <=? score p) (sort_by_score_desc ps)).
    { apply list_elem_of_In, filter_In. split.
      - apply list_elem_of_In. by rewrite Hperm.
      - by apply Nat.leb_le. }
    rewrite Hexp in Hin. apply elem_of_nil in Hin. exact Hin.
Qed.

(** [_select_best_pages] never raises: on every input it returns at most
    [MAX_TOC_PAGES = 20] of the given pages, and an empty list only for an
    empty input. *)
Theorem select_best_pages_total (ps : list PageScore) :
  exists out,
    _select_best_pages ps = Ret out /\
    (forall x, x ∈ out -> x ∈ ps) /\
    length out <= MAX_TOC_PAGES /\
    (out = [] <-> ps = []).
Proof.
  destruct (select_best_pages_spec ps) as (out & H1 & H2 & H3 & H4 & _).
  exists out. auto.
Qed.

(** When the scored pages carry distinct page numbers, [_select_best_pages]
    never selects a page number twice, and it selects at least two pages
    whenever the input has two pages with different numbers. *)
Theorem select_best_pages_distinct (ps : list PageScore) :
  NoDup (map page ps) ->
  exists out,
    _select_best_pages ps = Ret out /\
    NoDup (map page out) /\
    ((exists p q, p ∈ ps /\ q ∈ ps /\ page p <> page q) -> 2 <= length out).
Proof.
  intros Hnd.
  destruct (select_best_pages_spec ps) as (out & H1 & _ & _ & _ & H5 & H6 & _).
  exists out. auto.
Qed.

Lemma select_best_pages_distinct_witness :
  NoDup (map page [mk_ps 7 2 []; mk_ps 3 1 []]) /\
  exists out,
    _select_best_pages [mk_ps 7 2 []; mk_ps 3 1 []] = Ret out /\
    NoDup (map page out) /\
    ((exists p q, p ∈ [mk_ps 7 2 []; mk_ps 3 1 []] /\
                  q ∈ [mk_ps 7 2 []; mk_ps 3 1 []] /\ page p <> page q) ->
     2 <= length out).
Proof.
  assert (Hnd : NoDup (map page [mk_ps 7 2 []; mk_ps 3 1 []])).
  { apply NoDup_cons. split; [|apply NoDup_singleton].
    intros Hin. apply list_elem_of_singleton in Hin. discriminate. }
  split; [exact Hnd|]. exact (select_best_pages_distinct _ Hnd).
Defined.

(** As soon as one scored page reaches [MIN_SCORE], the pages returned by
    [_select_best_pages] are in ascending page order. *)
Theorem select_best_pages_page_order (ps : list PageScore) :
  (exists p, p ∈ ps /\ MIN_SCORE <= score p) ->
  exists out, _select_best_pages ps = Ret out /\ Sorted page_le out.
Proof.
  intros Hp.
  destruct (select_best_pages_spec ps) as (out & H1 & _ & _ & _ & _ & _ & H7).
  exists out. auto.
Qed.

Lemma select_best_pages_page_order_witness :
  exists out, _select_best_pages [mk_ps 9 6 []; mk_ps 4 9 []; mk_ps 8 3 []] = Ret out /\
              Sorted page_le out.
Proof.
  apply select_best_pages_page_order.
  exists (mk_ps 4 9 []). split; [apply elem_of_cons; right; apply elem_of_cons; auto|].
  vm_compute. lia.
Defined.

End PageSelectExtraProofs.

(** ** The heuristic TOC scan *)

Module HeuristicScanProofs.
Import PyStr PageSelect TextbookParser HeuristicScan.

Lemma score_pages_range (calc : pystr -> nat -> nat) (i : nat) (texts : list pystr) :
  NoDup (map page (score_pages calc i texts)) /\
  forall p, p ∈ score_pages calc i texts -> S i <= page p <= i + length texts.
Proof.
  revert i. induction texts as [|t texts IH]; intros i; cbn [score_pages].
  - split; [constructor|]. intros p Hp. apply elem_of_nil in Hp. contradiction.
  - destruct (IH (S i)) as [Hnd Hr].
    assert (Hr' : forall p, p ∈ score_pages calc (S i) texts ->
                    S i <= page p <= i + length (t :: texts)).
    { intros p Hp. specialize (Hr p Hp). cbn [length]. lia. }
    destruct (truthy (strip t)); [destruct (0 <? calc t i)|]; try (split; [exact Hnd|exact Hr']).
    split.
    + cbn [map]. apply NoDup_cons. split; [|exact Hnd].
      intros Hin. apply list_elem_of_In, in_map_iff in Hin as (p & Hp & Hin).
      apply list_elem_of_In in Hin. specialize (Hr p Hin). cbn [page] in Hp. lia.
    + intros p Hp. apply elem_of_cons in Hp as [->|Hp]; [cbn [page length]; lia|].
      exact (Hr' p Hp).
Qed.

(** Pages [1 .. min(60, len(doc))] are the candidates of the scan: the
    pages it reports are distinct page numbers of that range, at most 20 of
    them (at most 10 on the fallback), and at least two as soon as two of
    the scanned pages are non-blank with a positive score. *)
Theorem heuristic_scan_pages (calc : pystr -> nat -> nat) (texts : list pystr) :
  let r := _heuristic_scan calc texts in
  NoDup (scan_pages r) /\
  (forall n, n ∈ scan_pages r -> 1 <= n <= Nat.min 60 (length texts)) /\
  length (scan_pages r) <= MAX_TOC_PAGES /\
  (2 <= length (score_pages calc 0 (take 60 texts)) -> 2 <= length (scan_pages r)).
Proof.
  cbv zeta. unfold _heuristic_scan.
  assert (Hfb : NoDup (scan_pages (fallback texts)) /\
                (forall n, n ∈ scan_pages (fallback texts) -> 1 <= n <= Nat.min 60 (length texts)) /\
                length (scan_pages (fallback texts)) <= MAX_TOC_PAGES).
  { unfold fallback. cbn [scan_pages].
    pose proof (List.filter_length_le truthy (map strip (take 10 texts))) as Hk.
    rewrite length_map, length_take in Hk.
    split; [apply NoDup_seq|]. split.
    - intros n Hn. apply list_elem_of_In, in_seq in Hn. lia.
    - rewrite length_seq. unfold MAX_TOC_PAGES. lia. }
  destruct (score_pages_range calc 0 (take 60 texts)) as [Hnd Hr].
  destruct (score_pages calc 0 (take 60 texts)) as [|p0 ps0] eqn:Hsp.
  - destruct Hfb as (H1 & H2 & H3). split; [exact H1|]. split; [exact H2|].
    split; [exact H3|]. cbn [length]. lia.
  - rewrite <- Hsp in Hnd, Hr |- *.
    set (ps := score_pages calc 0 (take 60 texts)) in *.
    pose proof (PageSelectExtraProofs.sort_desc_perm ps) as Hperm.
    destruct (PageSelectExtraProofs.select_best_pages_spec (sort_by_score_desc ps))
      as (out & Hout & Hsub & Hlen & _ & Hndo & H2 & _).
    rewrite Hout. cbn [scan_pages].
    split.
    { apply Hndo. by rewrite (Permutation_map page Hperm). }
    split.
    { intros n Hn. apply list_elem_of_In, in_map_iff in Hn as (p & <- & Hp).
      apply list_elem_of_In in Hp. specialize (Hsub p Hp). rewrite Hperm in Hsub.
      specialize (Hr p Hsub). rewrite length_take in Hr. lia. }
    split; [rewrite length_map; exact Hlen|].
    intros Hge. rewrite length_map. apply H2.
    assert (Hps : ps = p0 :: ps0) by exact Hsp.
    destruct ps0 as [|p1 ps1]; [rewrite Hps in Hge; cbn [length] in Hge; lia|].
    exists p0, p1. rewrite Hperm, Hps.
    split; [apply elem_of_cons; auto|]. split; [apply elem_of_cons; right; apply elem_of_cons; auto|].
    rewrite Hps in Hnd. cbn [map] in Hnd. apply NoDup_cons in Hnd as [Hn _].
    intros Heq. apply Hn. rewrite Heq. apply elem_of_cons. auto.
Qed.

End HeuristicScanProofs.

(** ** The outline and chapter steps of HybridDocumentProcessor *)

Module HybridExtraProofs.
Import PyStr TextbookParser Chapters HybridSteps.

Lemma truthy_app (a b : pystr) : truthy (a ++ b) = truthy a || truthy b.
Proof. by destruct a. Qed.

(** Every formatted outline line contains at least the space after the
    bullets. *)
Lemma format_entry_truthy (lvl : Z) (title : pystr) (page : Z) (line : pystr) :
  Bookmark.format_entry (PyVal.VInt lvl) (PyVal.VStr title) (PyVal.VInt page) = Ret line ->
  truthy line = true.
Proof.
  unfold Bookmark.format_entry. cbn [PyVal.sub PyVal.mul].
  intros H. injection H as <-. rewrite !truthy_app. cbn. by rewrite !orb_true_r.
Qed.

Lemma outline_text_truthy (e : Z * pystr * Z) (es : list (Z * pystr * Z)) :
  truthy (default [] (ocr_path_bookmarks (Ret (e :: es)))) = true.
Proof.
  destruct e as [[lvl title] page]. unfold ocr_path_bookmarks. cbn [format_entries].
  destruct (BookmarkProofs.format_entry_typed lvl title page) as [line Hl].
  destruct (BookmarkProofs.format_entries_ok es) as [lines Hls].
  rewrite Hl, Hls. cbn [default].
  pose proof (format_entry_truthy lvl title page line Hl) as Ht.
  destruct lines as [|l lines]; cbn [Bookmark.join_lines]; [exact Ht|].
  destruct line; [discriminate|reflexivity].
Qed.

(** A PDF with a non-empty outline never goes through recognition on the
    recognition path: whatever [process_pdf] would do, [_ocr_path] ends
    with status [completed] and confidence 1.0 without running it. *)
Theorem ocr_path_outline_skips_recognition (e : Z * pystr * Z)
    (es : list (Z * pystr * Z)) (ocr : PyResult OCREngine.pdf_result) :
  Hybrid._ocr_path (Ret (e :: es)) ocr = Hybrid.mk_end st_completed (Some 1%Q) false.
Proof. unfold Hybrid._ocr_path. rewrite outline_text_truthy. reflexivity. Qed.

(** With a non-empty outline the chapter step of [_ocr_path] records the
    length of [extract_chapters_from_text]'s result when the formatted
    outline has more than 100 characters, and 0 otherwise, whatever
    [extract_chapters] would return: its argument [ocr_result] is unbound
    there and the [UnboundLocalError] is caught. *)
Theorem outline_chapters_count (e : Z * pystr * Z) (es : list (Z * pystr * Z))
    (from_text : PyResult (list chapter))
    (from_ocr : OCREngine.pdf_result -> PyResult (list chapter)) :
  let t := default [] (ocr_path_bookmarks (Ret (e :: es))) in
  outline_chapters (Ret (e :: es)) from_text from_ocr =
    Some (if 100 <? length t then chapters_count from_text else Ret 0).
Proof.
  cbv zeta. unfold outline_chapters. rewrite outline_text_truthy.
  unfold ocr_path_chapters. rewrite outline_text_truthy. cbn [andb].
  destruct (100 <? _); reflexivity.
Qed.

(** The TOC text of [_fast_path] is always the heuristic scan's: its
    [except] fallback (the first three chunks) is never reached, since
    [parse_textbook] returns normally for every outcome of [get_toc]. *)
Theorem fast_path_toc_text_is_scan (get_toc : PyResult (list (Z * pystr * Z)))
    (scan : scan_result) (chunks : list pystr) :
  _fast_path_toc_text get_toc scan chunks = scan_toc_text scan.
Proof.
  unfold _fast_path_toc_text, parse_textbook.
  destruct get_toc as [[|e es]|exc]; [reflexivity| |reflexivity].
  rewrite BookmarkProofs.extract_bookmarks_fails. reflexivity.
Qed.

End HybridExtraProofs.

(** ** Name resolution in chapter_divider_robust.py and documents.py *)

Module NameResolutionProofs.
Import Chapters ProgressTable RobustWrites DocumentStatusEndpoint.

Lemma user_unbound : PyScope.lookup_global robust_globals "User" = Raise NameError.
Proof. reflexivity. Qed.

(** [divide_document_into_chapters] never writes a [progress] row: each
    [_create_chapter_and_subsections] call fails on the unbound [User] and
    the [except Exception] swallows it, so the record loop returns normally
    with the table unchanged, for every list of chapters. *)
Theorem create_chapters_writes_nothing (db : list progress_row)
    (document_id user_id : Z) (chapters : list chapter) :
  create_chapters db document_id user_id chapters = Ret db.
Proof.
  induction chapters as [|ch chs IH]; [reflexivity|].
  cbn [create_chapters]. unfold _create_chapter_and_subsections.
  rewrite user_unbound. exact IH.
Qed.

(** [get_document_status] raises [NameError] on its first statement for
    every request: [Document] is neither imported by the function nor a
    global of documents.py. *)
Theorem get_document_status_name_error {A : Type} (rest : PyResult A) :
  get_document_status rest = Raise NameError.
Proof. reflexivity. Qed.

End NameResolutionProofs.

(** ** Number words of RobustChapterDivider *)

Module ChineseNumeralProofs.
Import PyStr Chapters ChineseNumerals.

Lemma digits_fuel_small (fuel : nat) (n : N) (acc : pystr) :
  Forall (fun c => (c < 100)%N) acc ->
  Forall (fun c => (c < 100)%N) (PyVal.digits_fuel fuel n acc).
Proof.
  revert n acc. induction fuel as [|f IH]; intros n acc Hacc; cbn [PyVal.digits_fuel]; [exact Hacc|].
  assert (Hd : Forall (fun c => (c < 100)%N) ((48 + n mod 10)%N :: acc)).
  { constructor; [|exact Hacc]. pose proof (N.mod_lt n 10 ltac:(lia)). lia. }
  destruct (n <? 10)%N; [exact Hd|]. apply IH. exact Hd.
Qed.

(** [str(n)] is made of ASCII characters ('-' and digits). *)
Lemma str_of_Z_small (z : Z) : Forall (fun c => (c < 100)%N) (PyVal.str_of_Z z).
Proof.
  unfold PyVal.str_of_Z.
  pose proof (digits_fuel_small 64 (Z.to_N (Z.abs z)) [] ltac:(constructor)).
  destruct (z <? 0)%Z; [constructor; [lia|]|]; assumption.
Qed.

(** No entry of the table of [_chinese_to_number] is an ASCII string. *)
Lemma chinese_to_number_ascii (s : pystr) :
  Forall (fun c => (c < 100)%N) s -> chinese_to_number s = 1%Z.
Proof.
  intros Hs. unfold chinese_to_number.
  assert (Hnone : forall k : pystr, (exists c k', k = c :: k' /\ (19968 <= c)%N) ->
                  k <> s).
  { intros k (c & k' & -> & Hc) <-. apply Forall_cons in Hs as [Hc' _]. lia. }
  rewrite (proj2 (list_find_None _ _)); [reflexivity|].
  repeat (apply Forall_cons_2;
          [intros Heq; eapply Hnone; [|exact Heq]; eexists _, _; split; [reflexivity|lia]|]).
  apply Forall_nil_2.
Qed.

(** Round trip of the two number helpers of [RobustChapterDivider]:
    [_chinese_to_number(_number_to_chinese(n))] is [n] for [n] in 1..10 and
    1 otherwise ([str(n)] is not in the table and the lookup defaults to 1);
    and [_chinese_to_number] only ever returns a number from 1 to 20. *)
Theorem chinese_number_roundtrip (n : Z) (s : pystr) :
  chinese_to_number (_number_to_chinese n) =
    (if (1 <=? n) && (n <=? 10) then n else 1)%Z /\
  (1 <= chinese_to_number s <= 20)%Z.
Proof.
  split.
  - destruct ((1 <=? n) && (n <=? 10))%Z eqn:Hr.
    + apply andb_true_iff in Hr as [H1 H2]. apply Z.leb_le in H1, H2.
      assert (n = 1 \/ n = 2 \/ n = 3 \/ n = 4 \/ n = 5 \/ n = 6 \/ n = 7 \/
              n = 8 \/ n = 9 \/ n = 10)%Z as Hn by lia.
      repeat destruct Hn as [->|Hn]; try reflexivity. subst n. reflexivity.
    + apply andb_false_iff in Hr.
      assert (Hout : (n < 1 \/ 10 < n)%Z).
      { destruct Hr as [Hr|Hr]; [apply Z.leb_gt in Hr|apply Z.leb_gt in Hr]; lia. }
      unfold _number_to_chinese.
      rewrite (proj2 (list_find_None _ _)).
      * apply chinese_to_number_ascii, str_of_Z_small.
      * repeat (apply Forall_cons_2; [lia|]). apply Forall_nil_2.
  - unfold chinese_to_number.
    match goal with |- context [list_find ?P ?tbl] =>
      destruct (list_find P tbl) as [[i [k v]]|] eqn:Hf end; [|lia].
    apply list_find_Some in Hf as [Hl _].
    apply list_elem_of_lookup_2 in Hl.
    repeat (apply elem_of_cons in Hl as [Hl|Hl]; [injection Hl as -> ->; lia|]).
    apply elem_of_nil in Hl. contradiction.
Qed.

End ChineseNumeralProofs.

(** ** Chapter lookups of ImprovedChapterExtractor *)

Module ImprovedChapterProofs.
Import PyStr Chapters ProgressTable ImprovedChapters.

(** What [_llm_extract] returns has been checked against the table. *)
Lemma llm_extract_rows (reply : LlmReply) (db : list progress_row)
    (document_id user_id : Z) (chs : list chapter) :
  _llm_extract reply db document_id user_id = Some chs ->
  Forall (fun ch => length (List.filter (same_chapter document_id ch) db) = 1) chs.
Proof.
  unfold _llm_extract.
  destruct (_llm_extract_reply reply) as [cs|]; [|discriminate].
  destruct (create_all db document_id user_id cs) as [[]|e] eqn:Hc; [|discriminate].
  intros H. injection H as <-. apply (ChapterProofs.create_all_ok db document_id user_id cs). exact Hc.
Qed.

Lemma extract_chapters_spec (pages : list OCREngine.page_result)
    (reply retry : LlmReply) (db : list progress_row) (document_id user_id : Z) :
  let chs := extract_chapters pages reply retry db document_id user_id in
  (chs = [] \/ 3 <= length chs) /\
  Forall (fun ch => length (List.filter (same_chapter document_id ch) db) = 1) chs.
Proof.
  cbv zeta. unfold extract_chapters.
  destruct pages as [|p ps]; [split; [left; reflexivity|constructor]|].
  destruct (_llm_extract reply db document_id user_id) as [cs|] eqn:H1;
    [|split; [left; reflexivity|constructor]].
  pose proof (llm_extract_rows _ _ _ _ _ H1) as Hf.
  destruct (length cs <? 3) eqn:H3.
  - unfold _retry_with_more_pages.
    destruct (_llm_extract retry db document_id user_id) as [cs'|] eqn:H2;
      [|split; [left; reflexivity|constructor]].
    pose proof (llm_extract_rows _ _ _ _ _ H2) as Hf'.
    destruct (3 <=? length cs') eqn:H4; [|split; [left; reflexivity|constructor]].
    split; [right; apply Nat.leb_le; exact H4|exact Hf'].
  - split; [right; apply Nat.ltb_ge; exact H3|exact Hf].
Qed.

Lemma extract_chapters_from_text_rows (toc_text : pystr) (reply : LlmReply)
    (db : list progress_row) (document_id user_id : Z) :
  Forall (fun ch => length (List.filter (same_chapter document_id ch) db) = 1)
    (extract_chapters_from_text toc_text reply db document_id user_id).
Proof.
  unfold extract_chapters_from_text.
  destruct (length toc_text <? 100); [constructor|].
  destruct (_llm_extract reply db document_id user_id) as [cs|] eqn:H; [|constructor].
  exact (llm_extract_rows _ _ _ _ _ H).
Qed.

(** [extract_chapters] returns either no chapter or at least three. *)
Theorem extract_chapters_none_or_three (pages : list OCREngine.page_result)
    (reply retry : LlmReply) (db : list progress_row) (document_id user_id : Z) :
  let chs := extract_chapters pages reply retry db document_id user_id in
  chs = [] \/ 3 <= length chs.
Proof.
  cbv zeta. exact (proj1 (extract_chapters_spec pages reply retry db document_id user_id)).
Qed.

(** Every chapter that [extract_chapters] or [extract_chapters_from_text]
    returns already had exactly one [progress] row for the document in the
    table the call reads: for any other chapter the write loop of
    [_llm_extract] raises ([TypeError] on the new [Progress], or
    [MultipleResultsFound]) and the method returns [None]. *)
Theorem extracted_chapters_have_rows (pages : list OCREngine.page_result)
    (toc_text : pystr) (reply retry : LlmReply) (db : list progress_row)
    (document_id user_id : Z) :
  Forall (fun ch => length (List.filter (same_chapter document_id ch) db) = 1)
    (extract_chapters pages reply retry db document_id user_id) /\
  Forall (fun ch => length (List.filter (same_chapter document_id ch) db) = 1)
    (extract_chapters_from_text toc_text reply db document_id user_id).
Proof.
  split; [exact (proj2 (extract_chapters_spec pages reply retry db document_id user_id))|].
  apply extract_chapters_from_text_rows.
Qed.

Lemma no_rows_nil (db : list progress_row) (document_id : Z) (chs : list chapter) :
  Forall (fun r => pr_document r <> document_id) db ->
  Forall (fun ch => length (List.filter (same_chapter document_id ch) db) = 1) chs ->
  chs = [].
Proof.
  intros Hdb Hf. destruct chs as [|ch chs]; [reflexivity|exfalso].
  apply Forall_cons in Hf as [Hch _].
  assert (Hnil : List.filter (same_chapter document_id ch) db = []).
  { induction db as [|r db IH]; [reflexivity|].
    apply Forall_cons in Hdb as [Hr Hdb]. cbn [List.filter].
    unfold same_chapter at 1. destruct (pr_document r =? document_id)%Z eqn:E.
    - apply Z.eqb_eq in E. contradiction.
    - cbn [andb]. apply IH; [exact Hdb|]. cbn [List.filter] in Hch.
      unfold same_chapter at 1 in Hch. rewrite E in Hch. exact Hch. }
  rewrite Hnil in Hch. discriminate.
Qed.

(** For a document without any [progress] row, [extract_chapters] and
    [extract_chapters_from_text] return no chapter, whatever the model
    answers. *)
Theorem fresh_document_no_chapters (pages : list OCREngine.page_result)
    (toc_text : pystr) (reply retry : LlmReply) (db : list progress_row)
    (document_id user_id : Z) :
  Forall (fun r => pr_document r <> document_id) db ->
  extract_chapters pages reply retry db document_id user_id = [] /\
  extract_chapters_from_text toc_text reply db document_id user_id = [].
Proof.
  intros Hdb. split.
  - apply (no_rows_nil db document_id); [exact Hdb|].
    exact (proj2 (extract_chapters_spec pages reply retry db document_id user_id)).
  - apply (no_rows_nil db document_id); [exact Hdb|].
    apply extract_chapters_from_text_rows.
Qed.

Definition three_chapters : list chapter :=
  [mk_ch 1 [31532; 19968; 31456]%N; mk_ch 2 [31532; 20108; 31456]%N;
   mk_ch 3 [31532; 19977; 31456]%N].

Definition one_page : list OCREngine.page_result :=
  [OCREngine.mk_page 1 EmptyString 0%Q true None].

(** A table with the rows of another document. *)
Definition other_document_rows : list progress_row :=
  [mk_row 3 8 1; mk_row 3 8 2; mk_row 3 8 3].

Lemma fresh_document_no_chapters_witness :
  Forall (fun r => pr_document r <> 7%Z) other_document_rows /\
  extract_chapters one_page (LlmJson true three_chapters) LlmHttpError
    other_document_rows 7 3 = [] /\
  extract_chapters_from_text (repeat 65%N 120) (LlmJson true three_chapters)
    other_document_rows 7 3 = [].
Proof.
  assert (Hdb : Forall (fun r => pr_document r <> 7%Z) other_document_rows).
  { repeat (apply Forall_cons_2; [cbn; lia|]). apply Forall_nil_2. }
  split; [exact Hdb|].
  exact (fresh_document_no_chapters one_page (repeat 65%N 120) (LlmJson true three_chapters)
           LlmHttpError other_document_rows 7 3 Hdb).
Defined.

End ImprovedChapterProofs.

(** ** TOC page windows of ImprovedChapterExtractor *)

Module TocPageProofs.
Import OCREngine ImprovedChapters.

Lemma continuous_loop_sublist (is_toc : string -> bool) (b : bool)
    (ps : list page_result) (k : nat) :
  continuous_loop is_toc b ps k `sublist_of` ps.
Proof.
  revert b k. induction ps as [|p ps IH]; intros b k; cbn [continuous_loop];
    [constructor|].
  destruct (b || is_toc (text p)); [apply sublist_skip, IH|].
  destruct (3 <=? S k); [apply sublist_nil_l|apply sublist_cons, IH].
Qed.

(** [_extract_continuous_toc_pages(pages, start_page)] and
    [_expand_toc_pages(pages, start_page, 15)] both start at the first page
    numbered [start_page], and are both empty exactly when there is none;
    the expanded window is the run of at most 15 consecutive pages from
    there, and the continuous TOC pages are a subsequence of it with the
    same first page. *)
Theorem toc_page_windows (is_toc : string -> bool) (pages : list page_result)
    (start_page : nat) :
  let c := _extract_continuous_toc_pages is_toc pages start_page in
  let e := _expand_toc_pages pages start_page 15 in
  c `sublist_of` e /\ length e <= 15 /\ head c = head e /\
  (e = [] <-> Forall (fun p => page_num p <> start_page) pages) /\
  (forall p, head e = Some p -> page_num p = start_page) /\
  (exists pre post, pages = pre ++ e ++ post /\
     Forall (fun p => page_num p <> start_page) pre).
Proof.
  cbv zeta. unfold _extract_continuous_toc_pages, _expand_toc_pages, start_index.
  destruct (list_find (fun p => page_num p = start_page) pages) as [[i p]|] eqn:Hf.
  - apply list_find_Some in Hf as (Hl & Hp & Hbefore).
    pose proof (lookup_lt_Some _ _ _ Hl) as Hi.
    set (n := Nat.min (i + 15) (length pages) - i).
    assert (Hn : 1 <= n <= 15) by (unfold n; lia).
    rewrite (drop_S _ _ _ Hl).
    destruct n as [|n']; [lia|]. cbn [take continuous_loop orb].
    split; [apply sublist_skip, continuous_loop_sublist|].
    split; [cbn [length]; rewrite length_take; lia|].
    split; [reflexivity|].
    split.
    { split; [discriminate|]. intros Hall. rewrite Forall_lookup in Hall.
      exfalso. exact (Hall i p Hl Hp). }
    split; [intros q Hq; injection Hq as <-; exact Hp|].
    exists (take i pages), (drop n' (drop (S i) pages)).
    split.
    + rewrite <- (take_drop i pages) at 1. f_equal.
      rewrite (drop_S _ _ _ Hl). cbn [app]. f_equal. symmetry. apply take_drop.
    + apply Forall_lookup_2. intros j q Hq.
      apply lookup_take_Some in Hq as [Hq Hj]. exact (Hbefore j q Hq Hj).
  - apply list_find_None in Hf.
    split; [constructor|]. split; [cbn; lia|]. split; [reflexivity|].
    split; [split; auto|]. split; [discriminate|].
    exists pages, []. rewrite !app_nil_r. auto.
Qed.

End TocPageProofs.
